(** * LLM tracer: interception, span assembly and patch registry

    A shallow embedding of [LLMTracerMixin]
    (ragaai_catalyst/tracers/agentic_tracing/tracers/llm_tracer.py).

    Python objects are embedded as follows.
    - Values are terms of [pyval]; floats are carried as exact rationals
      ([Qc]), since nothing below depends on rounding.
    - A [dict] is an insertion-ordered association list with the update
      discipline of Python dictionaries ([dict_set] overwrites in place,
      otherwise appends at the end).
    - Component dictionaries are mutable and shared between [llm_data], the
      output sink and the children buffer, so they live in a store [heap]
      and are handled through references.
    - The tracer object is the record [tracer]; every method takes the
      tracer and returns the updated one.
    - A wrapped callable is a state transformer on the tracer, so that the
      code it runs may itself go through patched calls. *)

From Stdlib Require Import QArith Qcanon.
From stdpp Require Import base option list strings gmap pretty numbers.

Local Open Scope string_scope.
Local Open Scope Z_scope.

(** ** Python values *)

Set Warnings "-register-all".

Inductive pyval :=
| VNone
| VBool (b : bool)
| VInt (z : Z)
| VFloat (q : Qc)
| VStr (s : string)
| VList (l : list pyval)
| VDict (d : list (string * pyval))
(* an object of some class, with its [metadata] attribute when it has one *)
| VObj (metadata : option (list (string * pyval)))
(* a coroutine object, not yet awaited, made by the named coroutine function *)
| VCoroutine (maker : string).

Definition dict := list (string * pyval).

(** [isinstance(value, (str, int, float, bool))] *)
Definition is_scalar (v : pyval) : bool :=
  match v with
  | VBool _ | VInt _ | VFloat _ | VStr _ => true
  | _ => false
  end.

(** Truth value of an object, as tested by [if x:]. *)
Definition truthy (v : pyval) : bool :=
  match v with
  | VNone => false
  | VBool b => b
  | VInt z => negb (z =? 0)
  | VFloat q => negb (Qeq_bool q 0)
  | VStr s => negb (String.eqb s EmptyString)
  | VList l => negb (Nat.eqb (length l) 0)
  | VDict d => negb (Nat.eqb (length d) 0)
  | VObj _ => true
  | VCoroutine _ => true
  end.

Definition opt_str (o : option string) : pyval :=
  match o with Some s => VStr s | None => VNone end.

(** ** Dictionaries *)

Fixpoint dict_get (k : string) (d : dict) : option pyval :=
  match d with
  | [] => None
  | (k', v) :: d' => if String.eqb k k' then Some v else dict_get k d'
  end.

(** [d[k] = v] *)
Fixpoint dict_set (k : string) (v : pyval) (d : dict) : dict :=
  match d with
  | [] => [(k, v)]
  | (k', v') :: d' =>
      if String.eqb k k' then (k, v) :: d' else (k', v') :: dict_set k v d'
  end.

(** [d.update(e)], also the [**e] of a dictionary display *)
Definition dict_update (d e : dict) : dict :=
  fold_left (fun acc kv => dict_set kv.1 kv.2 acc) e d.

(** [d.get(k, 0)] on a dictionary of numbers *)
Definition num_get {A} (k : string) (d : list (string * A)) (default : A) : A :=
  match List.find (fun kv => String.eqb k kv.1) d with
  | Some kv => kv.2
  | None => default
  end.

(** ** Exceptions and outcomes *)

Record exn := mk_exn {
  exc_type : string;          (* type(e).__name__ *)
  exc_msg : string;           (* str(e) *)
  exc_is_exception : bool     (* isinstance(e, Exception) *)
}.

Inductive outcome :=
| Returned (v : pyval)
| Raised (e : exn).

Definition KeyError (key : string) : exn :=
  mk_exn "KeyError" ("'" ++ key ++ "'") true.

Definition AttributeError (msg : string) : exn :=
  mk_exn "AttributeError" msg true.

(** What [asyncio.run] raises when the calling thread already runs a loop. *)
Definition RuntimeError_running_loop : exn :=
  mk_exn "RuntimeError"
    "asyncio.run() cannot be called from a running event loop" true.

(** ** Span attributes *)

Record metric := mk_metric {
  m_name : string;
  m_score : pyval;
  m_reasoning : pyval;
  m_cost : pyval;
  m_latency : pyval;
  m_metadata : pyval;
  m_config : pyval
}.

Definition metric_to_val (m : metric) : pyval :=
  VDict [("name", VStr (m_name m)); ("score", m_score m);
         ("reasoning", m_reasoning m); ("cost", m_cost m);
         ("latency", m_latency m); ("metadata", m_metadata m);
         ("config", m_config m)].

Record span_attributes := mk_span {
  sa_tags : list string;
  sa_metadata : dict;
  sa_metrics : list metric;
  sa_feedback : option pyval
}.

(** Modelled from the spec: the constructor [SpanAttributes(name)] of
    utils/span_attributes.py, which is not part of the sources at hand.
    A fresh attribute set has nothing pending. *)
Definition SpanAttributes : span_attributes := mk_span [] [] [] None.

(** ** The tracer object *)

Definition ref := nat.

(* One entry of [self.patches]: target object, method name, original *)
Record patch_record := mk_patch {
  p_obj : nat;
  p_method : string;
  p_original : nat
}.

Inductive log_entry :=
| ValidationError (e : exn)              (* logger.error "Validation Error: .." *)
| ErrorAddingMetric (e : exn)            (* logger.error "Error adding metric: .." *)
| ErrorUnpatching (method_name : string) (e : exn).  (* print "Error unpatching .." *)

(** The fields [__init__] sets, followed by those of the base tracer that the
    methods below read or write: the lifecycle switch [is_active], the agent
    linkage [current_agent_id] and [agent_children], the output sink
    [components], the pending span attributes, the names of the metrics
    handed out so far, and the ground truth [gt].  [heap] is the store of the
    component dictionaries, [log] collects what is logged or printed.

    [current_llm_call_name], [current_agent_id] and [agent_children] are
    context variables (read with [get], written with [set]); the other
    fields are plain attributes of the object.

    [total_cost] is a float in the source.  It is carried here by its exact
    value and the builder adds to it exactly: the rounding of a float sum is
    not modelled, and no statement below is about the value of such a sum,
    apart from adding nothing to it. *)
Record tracer := mk_tracer {
  is_active : bool;
  auto_instrument_llm : bool;
  auto_instrument_user_interaction : bool;
  auto_instrument_network : bool;
  patches : list patch_record;
  model_costs : list (string * (Qc * Qc));
  current_llm_call_name : option string;
  component_network_calls : gmap string (list pyval);
  component_user_interaction : gmap string (list pyval);
  current_component_id : option string;
  total_tokens : Z;
  total_cost : Qc;
  llm_data : ref;
  current_agent_id : option string;
  agent_children : list ref;
  components : list ref;
  span_attributes_dict : gmap (option string) span_attributes;
  visited_metrics : list string;
  gt : pyval;
  heap : list dict;
  log : list log_entry
}.

Definition set_patches (v : list patch_record) (st : tracer) : tracer :=
  mk_tracer (is_active st) (auto_instrument_llm st)
    (auto_instrument_user_interaction st) (auto_instrument_network st) v
    (model_costs st) (current_llm_call_name st) (component_network_calls st)
    (component_user_interaction st) (current_component_id st)
    (total_tokens st) (total_cost st) (llm_data st) (current_agent_id st)
    (agent_children st) (components st) (span_attributes_dict st)
    (visited_metrics st) (gt st) (heap st) (log st).

Definition set_current_llm_call_name (v : option string) (st : tracer) : tracer :=
  mk_tracer (is_active st) (auto_instrument_llm st)
    (auto_instrument_user_interaction st) (auto_instrument_network st)
    (patches st) (model_costs st) v (component_network_calls st)
    (component_user_interaction st) (current_component_id st)
    (total_tokens st) (total_cost st) (llm_data st) (current_agent_id st)
    (agent_children st) (components st) (span_attributes_dict st)
    (visited_metrics st) (gt st) (heap st) (log st).

Definition set_component_network_calls (v : gmap string (list pyval)) (st : tracer) : tracer :=
  mk_tracer (is_active st) (auto_instrument_llm st)
    (auto_instrument_user_interaction st) (auto_instrument_network st)
    (patches st) (model_costs st) (current_llm_call_name st) v
    (component_user_interaction st) (current_component_id st)
    (total_tokens st) (total_cost st) (llm_data st) (current_agent_id st)
    (agent_children st) (components st) (span_attributes_dict st)
    (visited_metrics st) (gt st) (heap st) (log st).

Definition set_current_component_id (v : option string) (st : tracer) : tracer :=
  mk_tracer (is_active st) (auto_instrument_llm st)
    (auto_instrument_user_interaction st) (auto_instrument_network st)
    (patches st) (model_costs st) (current_llm_call_name st)
    (component_network_calls st) (component_user_interaction st) v
    (total_tokens st) (total_cost st) (llm_data st) (current_agent_id st)
    (agent_children st) (components st) (span_attributes_dict st)
    (visited_metrics st) (gt st) (heap st) (log st).

Definition set_total_tokens (v : Z) (st : tracer) : tracer :=
  mk_tracer (is_active st) (auto_instrument_llm st)
    (auto_instrument_user_interaction st) (auto_instrument_network st)
    (patches st) (model_costs st) (current_llm_call_name st)
    (component_network_calls st) (component_user_interaction st)
    (current_component_id st) v (total_cost st) (llm_data st)
    (current_agent_id st) (agent_children st) (components st)
    (span_attributes_dict st) (visited_metrics st) (gt st) (heap st) (log st).

Definition set_total_cost (v : Qc) (st : tracer) : tracer :=
  mk_tracer (is_active st) (auto_instrument_llm st)
    (auto_instrument_user_interaction st) (auto_instrument_network st)
    (patches st) (model_costs st) (current_llm_call_name st)
    (component_network_calls st) (component_user_interaction st)
    (current_component_id st) (total_tokens st) v (llm_data st)
    (current_agent_id st) (agent_children st) (components st)
    (span_attributes_dict st) (visited_metrics st) (gt st) (heap st) (log st).

Definition set_llm_data (v : ref) (st : tracer) : tracer :=
  mk_tracer (is_active st) (auto_instrument_llm st)
    (auto_instrument_user_interaction st) (auto_instrument_network st)
    (patches st) (model_costs st) (current_llm_call_name st)
    (component_network_calls st) (component_user_interaction st)
    (current_component_id st) (total_tokens st) (total_cost st) v
    (current_agent_id st) (agent_children st) (components st)
    (span_attributes_dict st) (visited_metrics st) (gt st) (heap st) (log st).

Definition set_agent_children (v : list ref) (st : tracer) : tracer :=
  mk_tracer (is_active st) (auto_instrument_llm st)
    (auto_instrument_user_interaction st) (auto_instrument_network st)
    (patches st) (model_costs st) (current_llm_call_name st)
    (component_network_calls st) (component_user_interaction st)
    (current_component_id st) (total_tokens st) (total_cost st) (llm_data st)
    (current_agent_id st) v (components st) (span_attributes_dict st)
    (visited_metrics st) (gt st) (heap st) (log st).

Definition set_components (v : list ref) (st : tracer) : tracer :=
  mk_tracer (is_active st) (auto_instrument_llm st)
    (auto_instrument_user_interaction st) (auto_instrument_network st)
    (patches st) (model_costs st) (current_llm_call_name st)
    (component_network_calls st) (component_user_interaction st)
    (current_component_id st) (total_tokens st) (total_cost st) (llm_data st)
    (current_agent_id st) (agent_children st) v (span_attributes_dict st)
    (visited_metrics st) (gt st) (heap st) (log st).

Definition set_span_attributes_dict (v : gmap (option string) span_attributes) (st : tracer) : tracer :=
  mk_tracer (is_active st) (auto_instrument_llm st)
    (auto_instrument_user_interaction st) (auto_instrument_network st)
    (patches st) (model_costs st) (current_llm_call_name st)
    (component_network_calls st) (component_user_interaction st)
    (current_component_id st) (total_tokens st) (total_cost st) (llm_data st)
    (current_agent_id st) (agent_children st) (components st) v
    (visited_metrics st) (gt st) (heap st) (log st).

Definition set_visited_metrics (v : list string) (st : tracer) : tracer :=
  mk_tracer (is_active st) (auto_instrument_llm st)
    (auto_instrument_user_interaction st) (auto_instrument_network st)
    (patches st) (model_costs st) (current_llm_call_name st)
    (component_network_calls st) (component_user_interaction st)
    (current_component_id st) (total_tokens st) (total_cost st) (llm_data st)
    (current_agent_id st) (agent_children st) (components st)
    (span_attributes_dict st) v (gt st) (heap st) (log st).

Definition set_gt (v : pyval) (st : tracer) : tracer :=
  mk_tracer (is_active st) (auto_instrument_llm st)
    (auto_instrument_user_interaction st) (auto_instrument_network st)
    (patches st) (model_costs st) (current_llm_call_name st)
    (component_network_calls st) (component_user_interaction st)
    (current_component_id st) (total_tokens st) (total_cost st) (llm_data st)
    (current_agent_id st) (agent_children st) (components st)
    (span_attributes_dict st) (visited_metrics st) v (heap st) (log st).

Definition set_heap (v : list dict) (st : tracer) : tracer :=
  mk_tracer (is_active st) (auto_instrument_llm st)
    (auto_instrument_user_interaction st) (auto_instrument_network st)
    (patches st) (model_costs st) (current_llm_call_name st)
    (component_network_calls st) (component_user_interaction st)
    (current_component_id st) (total_tokens st) (total_cost st) (llm_data st)
    (current_agent_id st) (agent_children st) (components st)
    (span_attributes_dict st) (visited_metrics st) (gt st) v (log st).

Definition set_log (v : list log_entry) (st : tracer) : tracer :=
  mk_tracer (is_active st) (auto_instrument_llm st)
    (auto_instrument_user_interaction st) (auto_instrument_network st)
    (patches st) (model_costs st) (current_llm_call_name st)
    (component_network_calls st) (component_user_interaction st)
    (current_component_id st) (total_tokens st) (total_cost st) (llm_data st)
    (current_agent_id st) (agent_children st) (components st)
    (span_attributes_dict st) (visited_metrics st) (gt st) (heap st) v.

(** [self.MAX_PARAMETERS_TO_DISPLAY], fixed by [__init__] *)
Definition MAX_PARAMETERS_TO_DISPLAY : nat := 10.

(** The state [__init__] leaves, for given lifecycle flags of the base
    tracer.  [llm_data] is the empty dictionary, stored at reference 0. *)
Definition init (active : bool) (costs : list (string * (Qc * Qc))) : tracer :=
  {| is_active := active;
     auto_instrument_llm := false;
     auto_instrument_user_interaction := false;
     auto_instrument_network := false;
     patches := [];
     model_costs := costs;
     current_llm_call_name := None;
     component_network_calls := ∅;
     component_user_interaction := ∅;
     current_component_id := None;
     total_tokens := 0;
     total_cost := 0%Qc;
     llm_data := 0%nat;
     current_agent_id := None;
     agent_children := [];
     components := [];
     span_attributes_dict := ∅;
     visited_metrics := [];
     gt := VNone;
     heap := [ [] ];
     log := [] |}.

(** [instrument_llm_calls]: "Enable LLM instrumentation".  The search of
    [sys.modules] for provider modules to patch, and the import hooks, are
    left out. *)
Definition instrument_llm_calls (st : tracer) : tracer :=
  mk_tracer (is_active st) true (auto_instrument_user_interaction st)
    (auto_instrument_network st) (patches st) (model_costs st)
    (current_llm_call_name st) (component_network_calls st)
    (component_user_interaction st) (current_component_id st)
    (total_tokens st) (total_cost st) (llm_data st) (current_agent_id st)
    (agent_children st) (components st) (span_attributes_dict st)
    (visited_metrics st) (gt st) (heap st) (log st).

(** ** The component store *)

Definition heap_alloc (d : dict) (st : tracer) : ref * tracer :=
  (length (heap st), set_heap (heap st ++ [d]) st).

Definition heap_get (r : ref) (st : tracer) : option dict := heap st !! r.

(** [obj[k] = v] on the dictionary behind reference [r] *)
Definition heap_set_item (r : ref) (k : string) (v : pyval) (st : tracer) : tracer :=
  match heap st !! r with
  | Some d => set_heap (<[r := dict_set k v d]> (heap st)) st
  | None => st
  end.

(** ** Collaborators

    The extraction helpers of utils/llm_utils.py are outside this file; the
    tracer only relies on them being total.  They are taken as given. *)

Record llm_utils := mk_utils {
  extract_model_name : list pyval -> dict -> pyval -> string;
  extract_token_usage : pyval -> list (string * Z);
  calculate_llm_cost :
    list (string * Z) -> string -> list (string * (Qc * Qc)) -> list (string * Qc);
  extract_parameters : dict -> dict;
  extract_input_data : list pyval -> dict -> pyval -> dict;
  (* [extract_llm_output(result)]: [None] stands for a falsy output object,
     [Some v] for one whose [output_response] is [v] *)
  extract_llm_output : pyval -> option pyval
}.

(** Readings a single invocation takes from its environment. *)
Record probe := mk_probe {
  now_start : string;     (* datetime.now().astimezone() on entry *)
  now_end : string;       (* datetime.now().astimezone() when the component is built *)
  rss_start : Z;          (* psutil.Process().memory_info().rss before the call *)
  rss_end : Z;            (* the same after the call *)
  uuid4 : string;         (* str(uuid.uuid4()) *)
  loop_running : bool;    (* does the calling thread already run an event loop? *)
  format_exc : string     (* traceback.format_exc() in an except clause *)
}.

(** A wrapped callable.  [fn_body args kwargs] is what running the function
    (for a coroutine function: awaiting its coroutine) does to the tracer and
    what comes out of it. *)
Record callable := mk_callable {
  fn_name : string;            (* __name__ *)
  fn_hash : string;            (* generate_unique_hash_simple(f) *)
  fn_is_coroutine : bool;      (* asyncio.iscoroutinefunction(f) *)
  fn_body : list pyval -> dict -> tracer -> outcome * tracer
}.

(** [f(args, kwargs)] as a plain call: a coroutine function only makes
    its coroutine object. *)
Definition call_func (f : callable) (args : list pyval) (kwargs : dict)
    (st : tracer) : outcome * tracer :=
  if fn_is_coroutine f then (Returned (VCoroutine (fn_name f)), st)
  else fn_body f args kwargs st.

(** [type(v).__name__], as it shows in error messages *)
Definition type_name (v : pyval) : string :=
  match v with
  | VNone => "NoneType"
  | VBool _ => "bool"
  | VInt _ => "int"
  | VFloat _ => "float"
  | VStr _ => "str"
  | VList _ => "list"
  | VDict _ => "dict"
  | VObj _ => "object"
  | VCoroutine _ => "coroutine"
  end.

(** What [await v] raises on a value that is not awaitable. *)
Definition TypeError_not_awaitable (v : pyval) : exn :=
  mk_exn "TypeError"
    ("object " ++ type_name v ++ " can't be used in 'await' expression") true.

(** [await f(args, kwargs)].  For a coroutine function this runs the
    coroutine, without interleaving of other tasks.  A plain function is run
    by the call itself; what it returns is then not awaitable and [await]
    raises [TypeError], while an exception of its own goes through.  (A plain
    function that hands back an awaitable is not expressible: a [callable]
    has one body.) *)
Definition await_func (f : callable) (args : list pyval) (kwargs : dict)
    (st : tracer) : outcome * tracer :=
  if fn_is_coroutine f then fn_body f args kwargs st
  else
    match fn_body f args kwargs st with
    | (Returned v, st') => (Raised (TypeError_not_awaitable v), st')
    | (Raised e, st') => (Raised e, st')
    end.

(** The tracer a caller sees after code has run in a copy of its context:
    the context variables are those of the [caller], whatever was set in the
    copy; every plain attribute is as the code [left] it.  The variables are
    carried by value here, the children buffer included. *)
Definition restore_context (caller left : tracer) : tracer :=
  mk_tracer (is_active left) (auto_instrument_llm left)
    (auto_instrument_user_interaction left) (auto_instrument_network left)
    (patches left) (model_costs left) (current_llm_call_name caller)
    (component_network_calls left) (component_user_interaction left)
    (current_component_id left) (total_tokens left) (total_cost left)
    (llm_data left) (current_agent_id caller) (agent_children caller)
    (components left) (span_attributes_dict left) (visited_metrics left)
    (gt left) (heap left) (log left).

(** [asyncio.run(f(args, kwargs))]: refuses to start inside a running
    loop; otherwise it drives the coroutine to completion on a new loop, in a
    task that works on a copy of the caller's context. *)
Definition asyncio_run (pr : probe) (f : callable) (args : list pyval)
    (kwargs : dict) (st : tracer) : outcome * tracer :=
  if loop_running pr then (Raised RuntimeError_running_loop, st)
  else
    let '(o, st') := fn_body f args kwargs st in
    (o, restore_context st st').

(** ** Publishing *)

(** Modelled from the spec: [add_component] belongs to the base tracer, which
    is not part of the sources at hand.  Publishing appends the component to
    the children buffer of the current parent when one is set, and to the
    output sink otherwise.  [is_error] does not change the routing. *)
Definition add_component (r : ref) (is_error : bool) (st : tracer) : tracer :=
  match current_agent_id st with
  | Some _ => set_agent_children (agent_children st ++ [r]) st
  | None => set_components (components st ++ [r]) st
  end.

(** Everything routed so far: the sink, then the children buffer. *)
Definition routed (st : tracer) : list ref := components st ++ agent_children st.

(** ** Component builder *)

(** One turn of the loop over [parameters.items()]: only single values are
    taken over, not objects, dictionaries or lists. *)
Definition keep_scalars (acc : dict) (kv : string * pyval) : dict :=
  if is_scalar kv.2 then dict_set kv.1 kv.2 acc else acc.

(** The display projection computed by [create_llm_component]: the metadata
    of a [run_manager] parameter first, then the scalar parameters, cut to
    the first [MAX_PARAMETERS_TO_DISPLAY] items. *)
Definition parameters_to_display (parameters : dict) : dict :=
  let from_run_manager :=
    match dict_get "run_manager" parameters with
    | Some (VObj (Some metadata)) => dict_update [] metadata
    | _ => []
    end in
  take MAX_PARAMETERS_TO_DISPLAY
    (fold_left keep_scalars parameters from_run_manager).

(** [sum(1 for x in visited_metrics if x.startswith(base))] *)
Definition count_startswith (base : string) (visited : list string) : nat :=
  length (filter (fun x => String.prefix base x = true) visited).

(** The name a metric gets, given the names visited so far. *)
Definition metric_name (base : string) (visited : list string) : string :=
  let counter := count_startswith base visited in
  if (0 <? counter)%nat then base ++ "_" ++ pretty counter else base.

(** The metrics loop of [create_llm_component]: renames each raw metric and
    records the new name in [visited_metrics]. *)
Fixpoint rename_metrics (visited : list string) (raw_metrics : list metric)
    : list metric * list string :=
  match raw_metrics with
  | [] => ([], visited)
  | m :: rest =>
      let name := metric_name (m_name m) visited in
      let m' := mk_metric name (m_score m) (m_reasoning m) (m_cost m)
                  (m_latency m) (m_metadata m) (m_config m) in
      let '(ms, visited') := rename_metrics (visited ++ [name]) rest in
      (m' :: ms, visited')
  end.

Definition usage_to_val (usage : list (string * Z)) : pyval :=
  VDict (map (fun kv => (kv.1, VInt kv.2)) usage).

Definition cost_to_val (cost : list (string * Qc)) : pyval :=
  VDict (map (fun kv => (kv.1, VFloat kv.2)) cost).

Definition create_llm_component
    (component_id hash_id name llm_type : string) (version : pyval)
    (memory_used : Z) (start_time end_time : string)
    (input_data : dict) (output_data : option pyval)
    (cost : list (string * Qc)) (usage : list (string * Z))
    (error : pyval) (parameters : dict) (st : tracer) : ref * tracer :=
  (* Update total metrics *)
  let st := set_total_tokens (total_tokens st + num_get "total_tokens" usage 0) st in
  let st := set_total_cost (total_cost st + num_get "total_cost" cost 0)%Qc st in
  let network_calls :=
    if auto_instrument_network st
    then default [] (component_network_calls st !! component_id) else [] in
  let interactions :=
    if auto_instrument_user_interaction st
    then default [] (component_user_interaction st !! component_id) else [] in
  let to_display := parameters_to_display parameters in
  let tags :=
    match span_attributes_dict st !! Some name with
    | Some sa => sa_tags sa
    | None => []
    end in
  let renamed :=
    match span_attributes_dict st !! Some name with
    | Some sa => rename_metrics (visited_metrics st) (sa_metrics sa)
    | None => ([], visited_metrics st)
    end in
  let metrics := renamed.1 in
  let st := set_visited_metrics renamed.2 st in
  let info :=
    dict_update
      [("model", VStr llm_type); ("version", version);
       ("memory_used", VInt memory_used); ("cost", cost_to_val cost);
       ("tokens", usage_to_val usage); ("tags", VList (map VStr tags))]
      to_display in
  let data :=
    [("input", VDict input_data);
     ("output", default VNone output_data);
     ("memory_used", VInt memory_used)] in
  let data := if truthy (gt st) then dict_set "gt" (gt st) data else data in
  let component :=
    [("id", VStr component_id); ("hash_id", VStr hash_id);
     ("source_hash_id", VNone); ("type", VStr "llm"); ("name", VStr name);
     ("start_time", VStr start_time); ("end_time", VStr end_time);
     ("error", error); ("parent_id", opt_str (current_agent_id st));
     ("info", VDict info); ("extra_info", VDict parameters);
     ("data", VDict data);
     ("metrics", VList (map metric_to_val metrics));
     ("network_calls", VList network_calls);
     ("interactions", VList interactions)] in
  (* Reset the SpanAttributes of this name *)
  let st := set_span_attributes_dict
              (<[Some name := SpanAttributes]> (span_attributes_dict st)) st in
  heap_alloc component st.

(** Start tracking network calls for a component *)
Definition start_component (component_id : string) (st : tracer) : tracer :=
  let st := set_component_network_calls
              (<[component_id := []]> (component_network_calls st)) st in
  set_current_component_id (Some component_id) st.

(** Stop tracking network calls for a component *)
Definition end_component (component_id : string) (st : tracer) : tracer :=
  set_current_component_id None st.

(** ** Dual-mode invocation adapter *)

(** The error envelope built in the [except] clauses of the adapter. *)
Definition error_component (e : exn) : dict :=
  [("code", VInt 500); ("type", VStr (exc_type e));
   ("message", VStr (exc_msg e)); ("details", VDict [])].

Section Adapter.

Variable U : llm_utils.

(** [async def trace_llm_call(self, original_func, *args, **kwargs)],
    as run by awaiting it. *)
Definition trace_llm_call (pr : probe) (original_func : callable)
    (args : list pyval) (kwargs : dict) (st : tracer) : outcome * tracer :=
  if negb (is_active st) then await_func original_func args kwargs st
  else if negb (auto_instrument_llm st) then await_func original_func args kwargs st
  else
    let start_time := now_start pr in
    let start_memory := rss_start pr in
    let component_id := uuid4 pr in
    let hash_id := fn_hash original_func in
    let st := start_component component_id st in
    match await_func original_func args kwargs st with
    | (Returned result, st) =>
        let end_memory := rss_end pr in
        let memory_used := Z.max 0 (end_memory - start_memory) in
        let model_name := extract_model_name U args kwargs result in
        let token_usage := extract_token_usage U result in
        let cost := calculate_llm_cost U token_usage model_name (model_costs st) in
        let parameters := extract_parameters U kwargs in
        let input_data := extract_input_data U args kwargs result in
        let st := end_component component_id st in
        let name := default (fn_name original_func) (current_llm_call_name st) in
        let '(llm_component, st) :=
          create_llm_component component_id hash_id name model_name VNone
            memory_used start_time (now_end pr) input_data
            (extract_llm_output U result) cost token_usage VNone parameters st in
        (* no add_component here: the source has that call commented out *)
        let st := set_llm_data llm_component st in
        (Returned result, st)
    | (Raised e, st) =>
        if exc_is_exception e then
          let st := end_component component_id st in
          let name := default (fn_name original_func) (current_llm_call_name st) in
          let '(llm_component, st) :=
            create_llm_component component_id hash_id name "unknown" VNone
              0 start_time (now_end pr) (extract_input_data U args kwargs VNone)
              None [] [] (VDict (error_component e)) [] st in
          let st := add_component llm_component false st in
          (Raised e, st)
        else (Raised e, st)
    end.

(** The call made inside the [try] of [trace_llm_call_sync]. *)
Definition execute_sync (pr : probe) (original_func : callable)
    (args : list pyval) (kwargs : dict) (st : tracer) : outcome * tracer :=
  if fn_is_coroutine original_func then asyncio_run pr original_func args kwargs st
  else fn_body original_func args kwargs st.

(** [def trace_llm_call_sync(self, original_func, *args, **kwargs)] *)
Definition trace_llm_call_sync (pr : probe) (original_func : callable)
    (args : list pyval) (kwargs : dict) (st : tracer) : outcome * tracer :=
  if negb (is_active st) then
    if fn_is_coroutine original_func
    then asyncio_run pr original_func args kwargs st
    else call_func original_func args kwargs st
  else if negb (auto_instrument_llm st) then call_func original_func args kwargs st
  else
    let start_time := now_start pr in
    let component_id := uuid4 pr in
    let hash_id := fn_hash original_func in
    let st := start_component component_id st in
    let start_memory := rss_start pr in
    match execute_sync pr original_func args kwargs st with
    | (Returned result, st) =>
        let end_memory := rss_end pr in
        let memory_used := Z.max 0 (end_memory - start_memory) in
        let model_name := extract_model_name U args kwargs result in
        let token_usage := extract_token_usage U result in
        let cost := calculate_llm_cost U token_usage model_name (model_costs st) in
        let parameters := extract_parameters U kwargs in
        let input_data := extract_input_data U args kwargs result in
        let st := end_component component_id st in
        let name := default (fn_name original_func) (current_llm_call_name st) in
        let '(llm_component, st) :=
          create_llm_component component_id hash_id name model_name VNone
            memory_used start_time (now_end pr) input_data
            (extract_llm_output U result) cost token_usage VNone parameters st in
        let st := set_llm_data llm_component st in
        let st := add_component llm_component false st in
        (Returned result, st)
    | (Raised e, st) =>
        if exc_is_exception e then
          let st := end_component component_id st in
          let name := default (fn_name original_func) (current_llm_call_name st) in
          let end_memory := rss_end pr in
          let memory_used := Z.max 0 (end_memory - start_memory) in
          let '(llm_component, st) :=
            create_llm_component component_id hash_id name "unknown" VNone
              memory_used start_time (now_end pr)
              (extract_input_data U args kwargs VNone)
              None [] [] (VDict (error_component e)) [] st in
          let st := set_llm_data llm_component st in
          let st := add_component llm_component true st in
          (Raised e, st)
        else (Raised e, st)
    end.

End Adapter.

(** ** Decorator facade *)

(** Modelled from the spec: [self.span(name)] and the [add_tags],
    [add_metadata], [add_metrics] and [add_feedback] methods of
    [SpanAttributes] are not part of the sources at hand.  [span] gives the
    attribute set registered under the name (a fresh one when there is none);
    each [add_*] method records what it is given as pending for that name. *)
Definition span (name : option string) (st : tracer) : span_attributes :=
  default SpanAttributes (span_attributes_dict st !! name).

Definition update_span (name : option string)
    (f : span_attributes -> span_attributes) (st : tracer) : tracer :=
  set_span_attributes_dict
    (<[name := f (span name st)]> (span_attributes_dict st)) st.

Definition add_tags (tags : list string) (sa : span_attributes) : span_attributes :=
  mk_span (sa_tags sa ++ tags) (sa_metadata sa) (sa_metrics sa) (sa_feedback sa).

Definition add_metadata (metadata : dict) (sa : span_attributes) : span_attributes :=
  mk_span (sa_tags sa) (dict_update (sa_metadata sa) metadata) (sa_metrics sa)
    (sa_feedback sa).

Definition add_feedback (feedback : pyval) (sa : span_attributes) : span_attributes :=
  mk_span (sa_tags sa) (sa_metadata sa) (sa_metrics sa) (Some feedback).

(** [add_metrics] with its validation: the name has to be a string. *)
Definition add_metrics (name score reasoning cost latency metadata config : pyval)
    (sa : span_attributes) : exn + span_attributes :=
  match name with
  | VStr n =>
      inr (mk_span (sa_tags sa) (sa_metadata sa)
             (sa_metrics sa ++ [mk_metric n score reasoning cost latency metadata config])
             (sa_feedback sa))
  | _ => inl (mk_exn "ValueError" "metric name must be a string" true)
  end.

(** One turn of the loop over [metrics] in [trace_llm]: the subscripts
    [metric["name"]] and [metric["score"]] raise [KeyError] on an entry that
    lacks the field. *)
Definition register_metric (name : option string) (entry : dict) (st : tracer)
    : exn + tracer :=
  match dict_get "name" entry with
  | None => inl (KeyError "name")
  | Some n =>
      match dict_get "score" entry with
      | None => inl (KeyError "score")
      | Some s =>
          match add_metrics n s
                  (default (VStr EmptyString) (dict_get "reasoning" entry))
                  (default VNone (dict_get "cost" entry))
                  (default VNone (dict_get "latency" entry))
                  (default (VDict []) (dict_get "metadata" entry))
                  (default (VDict []) (dict_get "config" entry))
                  (span name st) with
          | inl e => inl e
          | inr sa => inr (update_span name (fun _ => sa) st)
          end
      end
  end.

(** The [for] loop, which sits inside one [try]: the first entry that raises
    ends the loop. *)
Fixpoint register_metrics (name : option string) (entries : list dict)
    (st : tracer) : option exn * tracer :=
  match entries with
  | [] => (None, st)
  | entry :: rest =>
      match register_metric name entry st with
      | inl e => (Some e, st)
      | inr st' => register_metrics name rest st'
      end
  end.

(** The [metrics] argument: a list of entries, or a single dictionary. *)
Inductive metrics_arg :=
| MetricsList (entries : list dict)
| MetricsDict (entry : dict).

Definition metrics_entries (metrics : metrics_arg) : list dict :=
  match metrics with
  | MetricsList entries => entries
  | MetricsDict [] => []          (* an empty dictionary is falsy *)
  | MetricsDict entry => [entry]
  end.

(** [trace_llm(name, tags, metadata, metrics, feedback)] up to the point where
    it returns the decorator.  Nothing in it lets an exception out. *)
Definition trace_llm (name : option string) (tags : list string)
    (metadata : dict) (metrics : metrics_arg) (feedback : pyval)
    (st : tracer) : tracer :=
  let st :=
    match span_attributes_dict st !! name with
    | Some _ => st
    | None => update_span name (fun _ => SpanAttributes) st
    end in
  let st := match tags with [] => st | _ => update_span name (add_tags tags) st end in
  let st :=
    match metadata with [] => st | _ => update_span name (add_metadata metadata) st end in
  let st :=
    match register_metrics name (metrics_entries metrics) st with
    | (None, st) => st
    | (Some e, st) =>
        if String.eqb (exc_type e) "ValueError"
        then set_log (log st ++ [ValidationError e]) st
        else set_log (log st ++ [ErrorAddingMetric e]) st
    end in
  let st :=
    if truthy feedback then update_span name (add_feedback feedback) st else st in
  set_current_llm_call_name name st.

(** The [error_info["error"]] dictionary of the wrappers. *)
Definition facade_error (pr : probe) (e : exn) : pyval :=
  VDict [("type", VStr (exc_type e)); ("message", VStr (exc_msg e));
         ("traceback", VStr (format_exc pr)); ("timestamp", VStr (now_end pr))].

(** [kwargs.get("gt", None) if kwargs else None] *)
Definition gt_of_kwargs (kwargs : dict) : pyval :=
  default VNone (dict_get "gt" kwargs).

(** [if parent_agent_id:] *)
Definition has_parent (parent_agent_id : option string) : bool :=
  truthy (opt_str parent_agent_id).

(** The statements of the [finally] clause shared by both wrappers, from the
    test on [error_info] on. *)
Definition publish_from_facade (component_id : string)
    (parent_agent_id : option string) (error_info : option pyval)
    (llm_component : ref) (st : tracer) : tracer :=
  let st :=
    match error_info with
    | Some err => heap_set_item llm_component "error" err st
    | None => st
    end in
  let st :=
    if has_parent parent_agent_id
    then set_agent_children (agent_children st ++ [llm_component]) st
    else add_component llm_component false st in
  let st := end_component component_id st in
  let st :=
    heap_set_item llm_component "interactions"
      (VList (default [] (component_user_interaction st !! component_id))) st in
  add_component llm_component false st.

(** What the [except Exception] clause of a wrapper leaves in [error_info]. *)
Definition error_info_of (pr : probe) (o : outcome) : option pyval :=
  match o with
  | Raised e => if exc_is_exception e then Some (facade_error pr e) else None
  | Returned _ => None
  end.

(** [sync_wrapper], the wrapper [trace_llm(name, ..)] puts around a plain
    function. *)
Definition sync_wrapper (pr : probe) (name : option string) (func : callable)
    (args : list pyval) (kwargs : dict) (st : tracer) : outcome * tracer :=
  let st := set_gt (gt_of_kwargs kwargs) st in
  let st := set_current_llm_call_name name st in
  if negb (is_active st) then call_func func args kwargs st
  else
    let component_id := uuid4 pr in
    let parent_agent_id := current_agent_id st in
    let st := start_component component_id st in
    let '(o, st) := call_func func args kwargs st in
    let error_info := error_info_of pr o in
    (* finally *)
    let llm_component := llm_data st in
    (* the test on [name] before this assignment holds for every name *)
    let st := heap_set_item llm_component "name" (opt_str name) st in
    (o, publish_from_facade component_id parent_agent_id error_info
          llm_component st).

(** [llm_component["data"]["gt"] = self.gt], which needs a ["data"] entry. *)
Definition set_data_gt (llm_component : ref) (st : tracer) : exn + tracer :=
  match heap_get llm_component st with
  | Some d =>
      match dict_get "data" d with
      | Some (VDict data) =>
          inr (heap_set_item llm_component "data"
                 (VDict (dict_set "gt" (gt st) data)) st)
      | _ => inl (KeyError "data")
      end
  | None => inl (KeyError "data")
  end.

(** [async_wrapper], the wrapper put around a coroutine function. *)
Definition async_wrapper (pr : probe) (name : option string) (func : callable)
    (args : list pyval) (kwargs : dict) (st : tracer) : outcome * tracer :=
  let st := set_gt (gt_of_kwargs kwargs) st in
  let st := set_current_llm_call_name name st in
  if negb (is_active st) then await_func func args kwargs st
  else
    let component_id := uuid4 pr in
    let parent_agent_id := current_agent_id st in
    let st := start_component component_id st in
    let '(o, st) := await_func func args kwargs st in
    let error_info := error_info_of pr o in
    (* finally *)
    let llm_component := llm_data st in
    let st := heap_set_item llm_component "name" (opt_str name) st in
    let after_gt := if truthy (gt st) then set_data_gt llm_component st else inr st in
    match after_gt with
    | inl e => (Raised e, st)    (* the finally clause itself raised *)
    | inr st =>
        (o, publish_from_facade component_id parent_agent_id error_info
              llm_component st)
    end.

(** [return async_wrapper if asyncio.iscoroutinefunction(func) else sync_wrapper] *)
Definition decorator (pr : probe) (name : option string) (func : callable)
    : list pyval -> dict -> tracer -> outcome * tracer :=
  if fn_is_coroutine func then async_wrapper pr name func
  else sync_wrapper pr name func.

(** ** Patch registry *)

(** The objects the tracer patches live outside of it.  [attrs] is what
    [getattr] sees, callables being told apart by identity; [rejects] lists
    the objects on which [setattr] raises, with the type name and message of
    the [Exception] raised ([AttributeError], [TypeError], ...). *)
Record world := mk_world {
  attrs : gmap (nat * string) nat;
  rejects : gmap nat (string * string);
  next_callable : nat
}.

Definition getattr (obj : nat) (name : string) (w : world) : exn + nat :=
  match attrs w !! (obj, name) with
  | Some c => inr c
  | None => inl (AttributeError name)
  end.

Definition setattr (obj : nat) (name : string) (c : nat) (w : world) : exn + world :=
  match rejects w !! obj with
  | Some (ty, msg) => inl (mk_exn ty msg true)
  | None => inr (mk_world (<[(obj, name) := c]> (attrs w)) (rejects w) (next_callable w))
  end.

(** [wrap_method(obj, method_name)]: both branches of the source do the same
    to the registry.  The wrapper is a new callable. *)
Definition wrap_method (obj : nat) (method_name : string) (stw : tracer * world)
    : option exn * (tracer * world) :=
  let '(st, w) := stw in
  match getattr obj method_name w with
  | inl e => (Some e, (st, w))
  | inr original_method =>
      let wrapped_method := next_callable w in
      let w := mk_world (attrs w) (rejects w) (S (next_callable w)) in
      match setattr obj method_name wrapped_method w with
      | inl e => (Some e, (st, w))
      | inr w =>
          (None, (set_patches (patches st ++ [mk_patch obj method_name original_method]) st, w))
      end
  end.

(** One turn of the loop of [unpatch_llm_calls]; the [try] is inside the
    loop, so a failure is printed and the loop goes on. *)
Definition unpatch_one (stw : tracer * world) (p : patch_record) : tracer * world :=
  let '(st, w) := stw in
  match setattr (p_obj p) (p_method p) (p_original p) w with
  | inr w' => (st, w')
  | inl e => (set_log (log st ++ [ErrorUnpatching (p_method p) e]) st, w)
  end.

Definition unpatch_llm_calls (stw : tracer * world) : tracer * world :=
  let '(st, w) := fold_left unpatch_one (patches stw.1) stw in
  (set_patches [] st, w).

(** ** Patching provider modules

    Modules, classes and callables are all objects of the [world], told apart
    by identity.  What a replacement callable does when it is called later
    (the patched [__init__] wraps the methods of the new client, the patched
    [invoke] remembers its messages) is not part of what patching does to the
    world and the registry, which is what is modelled here. *)

Definition hasattr (obj : nat) (name : string) (w : world) : bool :=
  match attrs w !! (obj, name) with Some _ => true | None => false end.

(** Running one patching step after another: an exception ends the run. *)
Definition and_then (r : option exn * (tracer * world))
    (k : tracer * world -> option exn * (tracer * world))
    : option exn * (tracer * world) :=
  match r with
  | (Some e, stw) => (Some e, stw)
  | (None, stw) => k stw
  end.

(** [if hasattr(obj, name): k(getattr(obj, name))] *)
Definition when_hasattr (obj : nat) (name : string)
    (k : nat -> tracer * world -> option exn * (tracer * world))
    (stw : tracer * world) : option exn * (tracer * world) :=
  match attrs stw.2 !! (obj, name) with
  | Some v => k v stw
  | None => (None, stw)
  end.

(** [if hasattr(obj, method_name): self.wrap_method(obj, method_name)] *)
Definition wrap_if_present (obj : nat) (method_name : string)
    (stw : tracer * world) : option exn * (tracer * world) :=
  if hasattr obj method_name stw.2 then wrap_method obj method_name stw
  else (None, stw).

(** [wrap_vertex_model_methods(model_class)] *)
Definition wrap_vertex_model_methods (model_class : nat) (stw : tracer * world)
    : option exn * (tracer * world) :=
  and_then (wrap_method model_class "generate_content" stw)
    (wrap_if_present model_class "generate_content_async").

(** [patch_vertex_ai_methods(module)] *)
Definition patch_vertex_ai_methods (module : nat) (stw : tracer * world)
    : option exn * (tracer * world) :=
  and_then
    (when_hasattr module "generative_models"
       (fun gen_models =>
          when_hasattr gen_models "GenerativeModel" wrap_vertex_model_methods)
       stw)
    (when_hasattr module "GenerativeModel" wrap_vertex_model_methods).

(** [patch_litellm_methods(module)] *)
Definition patch_litellm_methods (module : nat) (stw : tracer * world)
    : option exn * (tracer * world) :=
  and_then (wrap_method module "completion" stw)
    (wrap_method module "acompletion").

(** The block the source repeats for every LangChain chat class: [_generate]
    is wrapped whatever the class has, the other three when present. *)
Definition wrap_chat_methods (chat_class : nat) (stw : tracer * world)
    : option exn * (tracer * world) :=
  and_then (wrap_method chat_class "_generate" stw) (fun stw =>
  and_then (wrap_if_present chat_class "_agenerate" stw) (fun stw =>
  and_then (wrap_if_present chat_class "complete" stw)
    (wrap_if_present chat_class "acomplete"))).

(** [patch_langchain_google_methods(module)] *)
Definition patch_langchain_google_methods (module : nat) (stw : tracer * world)
    : option exn * (tracer * world) :=
  and_then (when_hasattr module "ChatVertexAI" wrap_chat_methods stw)
    (when_hasattr module "ChatGoogleGenerativeAI" wrap_chat_methods).

(** [obj.name = <a new function>], with [original = obj.name] read first:
    the shape of [wrap_openai_client_methods], [wrap_anthropic_client_methods]
    and [wrap_genai_model_methods] on [__init__], and of the [invoke]
    replacement in [patch_google_genai_methods].  Nothing is added to
    [self.patches]. *)
Definition replace_attribute (obj : nat) (name : string) (stw : tracer * world)
    : option exn * (tracer * world) :=
  let '(st, w) := stw in
  match getattr obj name w with
  | inl e => (Some e, (st, w))
  | inr original =>
      let replacement := next_callable w in
      let w := mk_world (attrs w) (rejects w) (S (next_callable w)) in
      match setattr obj name replacement w with
      | inl e => (Some e, (st, w))
      | inr w => (None, (st, w))
      end
  end.

Definition wrap_openai_client_methods (client_class : nat) :=
  replace_attribute client_class "__init__".

Definition wrap_anthropic_client_methods (client_class : nat) :=
  replace_attribute client_class "__init__".

Definition wrap_genai_model_methods (model_class : nat) :=
  replace_attribute model_class "__init__".

(** [patch_anthropic_methods(module)] *)
Definition patch_anthropic_methods (module : nat) (stw : tracer * world)
    : option exn * (tracer * world) :=
  when_hasattr module "Anthropic" wrap_anthropic_client_methods stw.

(** [patch_google_genai_methods(module)] *)
Definition patch_google_genai_methods (module : nat) (stw : tracer * world)
    : option exn * (tracer * world) :=
  and_then (when_hasattr module "GenerativeModel" wrap_genai_model_methods stw)
    (when_hasattr module "ChatGoogleGenerativeAI"
       (fun chat_class stw =>
          and_then (replace_attribute chat_class "invoke" stw)
            (wrap_chat_methods chat_class))).

(** * Vocabulary of the statements *)

(** The attribute a registry entry is aimed at. *)
Definition target (p : patch_record) : nat * string := (p_obj p, p_method p).


(** [r] is routed exactly once between two states: appended to the children
    buffer when a parent is set, to the sink otherwise, the other of the two
    being left as it was. *)
Definition published_once (before after : tracer) (r : ref) : Prop :=
  match current_agent_id before with
  | Some _ =>
      agent_children after = (agent_children before ++ [r])%list /\
      components after = components before
  | None =>
      components after = (components before ++ [r])%list /\
      agent_children after = agent_children before
  end.

(** What the failure path of an adapter owes: [res] is what the adapter gave,
    [e] the exception of the wrapped call and [st1] the tracer as the wrapped
    call left it. *)
Definition failure_recorded (res : outcome * tracer) (e : exn) (st1 : tracer) : Prop :=
  res.1 = Raised e /\
  exists c,
    heap res.2 = (heap st1 ++ [c])%list /\
    dict_get "error" c = Some (VDict (error_component e)) /\
    published_once st1 res.2 (length (heap st1)).

(** What the display projection shows for an entry of the metadata: the
    value of the scalar parameter of the same key when there is one, its own
    value otherwise. *)
Definition shown_value (parameters : dict) (kv : string * pyval) : string * pyval :=
  match dict_get kv.1 parameters with
  | Some v' => if is_scalar v' then (kv.1, v') else kv
  | None => kv
  end.

(** * Sample inputs

    Concrete collaborators, callables and tracers on which the properties
    below are exercised. *)

Definition sample_utils : llm_utils :=
  {| extract_model_name := fun _ _ _ => "model-x";
     extract_token_usage := fun _ =>
       [("prompt_tokens", 10); ("completion_tokens", 5); ("total_tokens", 15)];
     calculate_llm_cost := fun _ _ _ => [("total_cost", Q2Qc (2 # 10))];
     extract_parameters := fun kwargs => kwargs;
     extract_input_data := fun args kwargs _ =>
       [("args", VList args); ("kwargs", VDict kwargs)];
     extract_llm_output := fun result => Some result |}.

Definition sample_probe (id : string) (in_loop : bool) : probe :=
  {| now_start := "2025-01-01T00:00:00+00:00";
     now_end := "2025-01-01T00:00:01+00:00";
     rss_start := 1000;
     rss_end := 1200;
     uuid4 := id;
     loop_running := in_loop;
     format_exc := "Traceback (most recent call last): ..." |}.

(** A client method that answers. *)
Definition completion : callable :=
  mk_callable "completion" "hash-completion" false
    (fun _ _ st => (Returned (VStr "ok"), st)).

(** The same as a coroutine function. *)
Definition acompletion : callable :=
  mk_callable "acompletion" "hash-acompletion" true
    (fun _ _ st => (Returned (VStr "ok"), st)).

Definition bad_request : exn := mk_exn "ValueError" "bad request" true.

(** Client methods that raise [ValueError("bad request")]. *)
Definition failing_completion : callable :=
  mk_callable "completion" "hash-completion" false
    (fun _ _ st => (Raised bad_request, st)).

Definition failing_acompletion : callable :=
  mk_callable "acompletion" "hash-acompletion" true
    (fun _ _ st => (Raised bad_request, st)).

(** A tracer that is active, with LLM auto-instrumentation switched on (what
    [instrument_llm_calls] does to the flag). *)
Definition live_tracer : tracer := instrument_llm_calls (init true []).

(** A registry of two entries; the first one is aimed at an object that
    refuses the assignment. *)
Definition two_patches : tracer * world :=
  (set_patches [mk_patch 2 "create" 5; mk_patch 1 "create" 7] (init true []),
   mk_world {[ (1%nat, "create") := 10%nat; (2%nat, "create") := 11%nat ]}
            {[ 2%nat := ("AttributeError", "read-only attribute") ]} 12).


(** Keyword arguments of a LangChain-style call: a callback manager that
    carries metadata, two scalar settings and a structured one. *)
Definition langchain_parameters : dict :=
  [("temperature", VInt 1);
   ("run_manager", VObj (Some [("callbacks", VList [VStr "handler"])]));
   ("stop", VList [VStr "END"]);
   ("model", VStr "model-x")].

(** Keyword arguments with no callback manager. *)
Definition plain_parameters : dict :=
  [("temperature", VInt 1); ("stop", VList [VStr "END"]);
   ("stream", VBool false); ("model", VStr "model-x")].

(** A metric entry as handed to [trace_llm]. *)
Definition metric_m : dict := [("name", VStr "m"); ("score", VInt 1)].

(** The metric [add_metrics] records for [metric_m]. *)
Definition recorded (name : string) : metric :=
  mk_metric name (VInt 1) (VStr EmptyString) VNone VNone (VDict []) (VDict []).



(** A metric entry that lacks its name. *)
Definition metric_without_name : dict := [("score", VInt 1)].

(** A decorated function that makes one patched client call and returns its
    answer. *)
Definition ask : callable :=
  mk_callable "ask" "hash-ask" false
    (fun args kwargs st =>
       trace_llm_call_sync sample_utils (sample_probe "c-inner" false)
         completion args kwargs st).

(** The same, failing on the answer once the client call is over. *)
Definition unusable_answer : exn := mk_exn "ValueError" "unusable answer" true.

Definition ask_then_fail : callable :=
  mk_callable "ask" "hash-ask" false
    (fun args kwargs st =>
       (Raised unusable_answer,
        (trace_llm_call_sync sample_utils (sample_probe "c-inner" false)
           completion args kwargs st).2)).

(** A decorated coroutine function that awaits one patched client call. *)
Definition aask : callable :=
  mk_callable "aask" "hash-aask" true
    (fun args kwargs st =>
       trace_llm_call sample_utils (sample_probe "c-inner" false)
         acompletion args kwargs st).

(** A world of provider modules: [litellm] (20) with both entry points, an
    older build of it without [acompletion] (60), [vertexai] (30) with its
    submodule [generative_models] (31) and the class [GenerativeModel] (32),
    a LangChain module (40) with [ChatGoogleGenerativeAI] (41), [anthropic]
    (50) with its client class (51), and a client object (70) that refuses
    attribute assignment. *)
Definition provider_world : world :=
  mk_world
    (list_to_map
       [((20%nat, "completion"), 100%nat); ((20%nat, "acompletion"), 101%nat);
        ((60%nat, "completion"), 107%nat);
        ((30%nat, "generative_models"), 31%nat);
        ((31%nat, "GenerativeModel"), 32%nat);
        ((32%nat, "generate_content"), 102%nat);
        ((32%nat, "generate_content_async"), 103%nat);
        ((40%nat, "ChatGoogleGenerativeAI"), 41%nat);
        ((41%nat, "invoke"), 104%nat); ((41%nat, "_generate"), 105%nat);
        ((50%nat, "Anthropic"), 51%nat); ((51%nat, "__init__"), 106%nat);
        ((70%nat, "create"), 108%nat)])
    {[ 70%nat := ("AttributeError", "object attribute 'create' is read-only") ]}
    1000.


(** Keyword arguments that name the model, as most client calls do. *)
Definition model_parameters : dict :=
  [("model", VStr "gpt-4o"); ("temperature", VInt 0)].


(** The call of the builder on the success path of either adapter, [st1]
    being the tracer as the wrapped call left it. *)
Definition built_on_success (U : llm_utils) (pr : probe) (f : callable)
    (args : list pyval) (kwargs : dict) (result : pyval) (st1 : tracer)
    : ref * tracer :=
  let model_name := extract_model_name U args kwargs result in
  let token_usage := extract_token_usage U result in
  create_llm_component (uuid4 pr) (fn_hash f)
    (default (fn_name f) (current_llm_call_name st1)) model_name VNone
    (Z.max 0 (rss_end pr - rss_start pr)) (now_start pr) (now_end pr)
    (extract_input_data U args kwargs result) (extract_llm_output U result)
    (calculate_llm_cost U token_usage model_name (model_costs st1)) token_usage
    VNone (extract_parameters U kwargs) (end_component (uuid4 pr) st1).

(** The call of the builder on the failure path, with the memory reading the
    adapter passes ([0] for the asynchronous one). *)
Definition built_on_failure (U : llm_utils) (pr : probe) (f : callable)
    (args : list pyval) (kwargs : dict) (e : exn) (memory_used : Z)
    (st1 : tracer) : ref * tracer :=
  create_llm_component (uuid4 pr) (fn_hash f)
    (default (fn_name f) (current_llm_call_name st1)) "unknown" VNone
    memory_used (now_start pr) (now_end pr)
    (extract_input_data U args kwargs VNone) None [] []
    (VDict (error_component e)) [] (end_component (uuid4 pr) st1).


(** The metric [trace_llm] registers for an entry, when the entry has a
    string under "name" and something under "score". *)
Definition entry_metric (entry : dict) : option metric :=
  match dict_get "name" entry, dict_get "score" entry with
  | Some (VStr n), Some s =>
      Some (mk_metric n s
              (default (VStr EmptyString) (dict_get "reasoning" entry))
              (default VNone (dict_get "cost" entry))
              (default VNone (dict_get "latency" entry))
              (default (VDict []) (dict_get "metadata" entry))
              (default (VDict []) (dict_get "config" entry)))
  | _, _ => None
  end.


(** A decorated function that makes no traced call at all. *)
Definition no_client_call : callable :=
  mk_callable "prepare" "hash-prepare" false
    (fun _ _ st => (Returned VNone, st)).

Definition ano_client_call : callable :=
  mk_callable "aprepare" "hash-aprepare" true
    (fun _ _ st => (Returned VNone, st)).


(** A LangChain module (80) whose class [ChatVertexAI] (81) has [_generate]
    and [_agenerate] and neither of the completion methods. *)
Definition langchain_world : world :=
  mk_world
    (list_to_map
       [((80%nat, "ChatVertexAI"), 81%nat);
        ((81%nat, "_generate"), 110%nat); ((81%nat, "_agenerate"), 111%nat)])
    ∅ 1000.


(** A patched method whose body is itself a patched synchronous call. *)
Definition outer_completion : callable :=
  mk_callable "outer" "hash-outer" false
    (fun args kwargs st =>
       trace_llm_call_sync sample_utils (sample_probe "c-inner" false)
         completion args kwargs st).


(** Faults that are not instances of [Exception]: a cancelled task and an
    interrupt from the keyboard. *)
Definition cancelled : exn := mk_exn "CancelledError" EmptyString false.

Definition interrupted : exn := mk_exn "KeyboardInterrupt" EmptyString false.

Definition cancelled_acompletion : callable :=
  mk_callable "acompletion" "hash-acompletion" true
    (fun _ _ st => (Raised cancelled, st)).

Definition interrupted_completion : callable :=
  mk_callable "completion" "hash-completion" false
    (fun _ _ st => (Raised interrupted, st)).

(** * Properties *)

(** ** Patch registry: uninstall *)

Section Unpatch.

Implicit Types (st : tracer) (w : world) (p q : patch_record).

Lemma unpatch_one_rejects st w p :
  rejects (unpatch_one (st, w) p).2 = rejects w.
Proof.
  unfold unpatch_one, setattr.
  destruct (rejects w !! p_obj p) as [[ty msg]|]; reflexivity.
Qed.

Lemma unpatch_fold_rejects l : forall st w,
  rejects (fold_left unpatch_one l (st, w)).2 = rejects w.
Proof.
  induction l as [|p l IH]; intros st w; cbn [fold_left]; [reflexivity|].
  destruct (unpatch_one (st, w) p) as [st1 w1] eqn:E.
  rewrite IH. change w1 with (st1, w1).2. rewrite <- E.
  apply unpatch_one_rejects.
Qed.

Lemma unpatch_one_log st w p x :
  x ∈ log st -> x ∈ log (unpatch_one (st, w) p).1.
Proof.
  intros Hx. unfold unpatch_one.
  destruct (setattr _ _ _ _); simpl; [|exact Hx].
  apply elem_of_app. by left.
Qed.

Lemma unpatch_fold_log l : forall st w x,
  x ∈ log st -> x ∈ log (fold_left unpatch_one l (st, w)).1.
Proof.
  induction l as [|p l IH]; intros st w x Hx; cbn [fold_left]; [exact Hx|].
  destruct (unpatch_one (st, w) p) as [st1 w1] eqn:E.
  apply IH. change st1 with (st1, w1).1. rewrite <- E.
  by apply unpatch_one_log.
Qed.

(** Entries aimed at other attributes leave an attribute as it is. *)
Lemma unpatch_fold_other l k : forall st w,
  (forall q, q ∈ l -> target q ≠ k) ->
  attrs (fold_left unpatch_one l (st, w)).2 !! k = attrs w !! k.
Proof.
  induction l as [|p l IH]; intros st w Hl; cbn [fold_left]; [reflexivity|].
  destruct (unpatch_one (st, w) p) as [st1 w1] eqn:E.
  rewrite IH by (intros q Hq; apply Hl; by right).
  revert E. unfold unpatch_one, setattr.
  destruct (rejects w !! p_obj p) as [[ty msg]|]; intros [= <- <-]; [reflexivity|].
  simpl. apply lookup_insert_ne. apply Hl. by left.
Qed.

(** What one turn of the loop does for its own entry. *)
Lemma unpatch_one_entry st w p :
  match rejects w !! p_obj p with
  | Some (ty, msg) =>
      ErrorUnpatching (p_method p) (mk_exn ty msg true) ∈ log (unpatch_one (st, w) p).1
  | None => attrs (unpatch_one (st, w) p).2 !! target p = Some (p_original p)
  end.
Proof.
  unfold unpatch_one, setattr.
  destruct (rejects w !! p_obj p) as [[ty msg]|]; simpl.
  - apply elem_of_app. right. by apply list_elem_of_singleton.
  - apply lookup_insert_eq.
Qed.

Lemma unpatch_empty st w :
  patches st = [] -> unpatch_llm_calls (st, w) = (set_patches [] st, w).
Proof. intros H. unfold unpatch_llm_calls. simpl. by rewrite H. Qed.

End Unpatch.

(** C6. [unpatch_llm_calls] goes through every recorded entry: an entry whose
    target accepts the assignment gets its original back (and keeps it unless
    a later entry is aimed at the same attribute), an entry whose target
    refuses it is reported and the loop carries on with the rest; the
    registry is empty afterwards, and a second call right after the first
    changes nothing. *)
Theorem unpatch_llm_calls_exhaustive_idempotent (st : tracer) (w : world) :
  let stw' := unpatch_llm_calls (st, w) in
  patches stw'.1 = [] /\
  unpatch_llm_calls stw' = stw' /\
  forall (l1 l2 : list patch_record) (p : patch_record),
    patches st = (l1 ++ p :: l2)%list ->
    match rejects w !! p_obj p with
    | Some (ty, msg) =>
        ErrorUnpatching (p_method p) (mk_exn ty msg true) ∈ log stw'.1
    | None =>
        (forall q, q ∈ l2 -> target q ≠ target p) ->
        attrs stw'.2 !! target p = Some (p_original p)
    end.
Proof.
  intros stw'.
  assert (Hrun : stw' =
    (set_patches [] (fold_left unpatch_one (patches st) (st, w)).1,
     (fold_left unpatch_one (patches st) (st, w)).2)).
  { subst stw'. unfold unpatch_llm_calls. cbn [fst].
    by destruct (fold_left unpatch_one (patches st) (st, w)). }
  rewrite Hrun. cbn [fst snd]. split; [reflexivity|]. split.
  { rewrite unpatch_empty by reflexivity. reflexivity. }
  intros l1 l2 p Hp. rewrite Hp, fold_left_app. cbn [fold_left].
  destruct (fold_left unpatch_one l1 (st, w)) as [st1 w1] eqn:E1.
  assert (Hr1 : rejects w1 = rejects w).
  { change w1 with (st1, w1).2. rewrite <- E1. apply unpatch_fold_rejects. }
  pose proof (unpatch_one_entry st1 w1 p) as Hone. rewrite Hr1 in Hone.
  destruct (unpatch_one (st1, w1) p) as [st2 w2] eqn:E2.
  destruct (rejects w !! p_obj p) as [[ty msg]|].
  - change (log (set_patches [] ?x)) with (log x).
    by apply unpatch_fold_log.
  - intros Hl2. rewrite unpatch_fold_other by exact Hl2. exact Hone.
Qed.

Lemma unpatch_llm_calls_witness :
  attrs (unpatch_llm_calls two_patches).2 !! (1%nat, "create") = Some 7%nat /\
  ErrorUnpatching "create" (mk_exn "AttributeError" "read-only attribute" true)
    ∈ log (unpatch_llm_calls two_patches).1.
Proof.
  destruct (unpatch_llm_calls_exhaustive_idempotent two_patches.1 two_patches.2)
    as (_ & _ & H).
  split.
  - pose proof (H [mk_patch 2 "create" 5] [] (mk_patch 1 "create" 7) eq_refl) as H1.
    assert (E : rejects two_patches.2 !! 1%nat = None) by (vm_compute; reflexivity).
    cbn [p_obj] in H1. rewrite E in H1.
    apply H1. intros q Hq. inversion Hq.
  - pose proof (H [] [mk_patch 1 "create" 7] (mk_patch 2 "create" 5) eq_refl) as H2.
    assert (E : rejects two_patches.2 !! 2%nat
                = Some ("AttributeError", "read-only attribute"))
      by (vm_compute; reflexivity).
    cbn [p_obj] in H2. rewrite E in H2. exact H2.
Defined.

(** X2. Installing a wrapper on a fresh registry and uninstalling gives the
    attribute its original callable back. *)
Lemma wrap_then_unpatch (obj : nat) (method_name : string) (st : tracer)
    (w : world) (original : nat) :
  patches st = [] ->
  attrs w !! (obj, method_name) = Some original ->
  rejects w !! obj = None ->
  let installed := wrap_method obj method_name (st, w) in
  installed.1 = None /\
  attrs installed.2.2 !! (obj, method_name) = Some (next_callable w) /\
  attrs (unpatch_llm_calls installed.2).2 !! (obj, method_name) = Some original /\
  patches (unpatch_llm_calls installed.2).1 = [].
Proof.
  intros Hp Ha Hr. unfold wrap_method, getattr, setattr. cbn.
  rewrite Ha. cbn. rewrite Hr. cbn. rewrite Hp.
  unfold unpatch_llm_calls, unpatch_one, setattr. cbn. rewrite Hr. cbn.
  repeat split; by rewrite ?lookup_insert_eq.
Qed.

(** ** Adapter: the pass-through branches *)

Section PassThrough.

Variable U : llm_utils.
Implicit Types (pr : probe) (f : callable) (args : list pyval) (kwargs : dict)
  (st : tracer).






(** C10. With an inactive tracer, [trace_llm_call_sync] on a coroutine
    function does what [asyncio.run] does.  Outside of a running event loop
    it drives the coroutine to completion and returns the awaited outcome,
    where a plain call of the function would have returned the coroutine
    object without running anything; the coroutine having run in a copy of
    the context, the caller finds its context variables as they were and
    everything else as the coroutine left it.  Inside a running loop it
    raises [RuntimeError] and the coroutine is never run. *)
Theorem trace_llm_call_sync_inactive_coroutine pr f args kwargs st :
  is_active st = false ->
  fn_is_coroutine f = true ->
  trace_llm_call_sync U pr f args kwargs st = asyncio_run pr f args kwargs st /\
  call_func f args kwargs st = (Returned (VCoroutine (fn_name f)), st) /\
  (loop_running pr = false ->
     (trace_llm_call_sync U pr f args kwargs st).1 = (fn_body f args kwargs st).1 /\
     (trace_llm_call_sync U pr f args kwargs st).2
       = restore_context st (fn_body f args kwargs st).2) /\
  (loop_running pr = true ->
     trace_llm_call_sync U pr f args kwargs st = (Raised RuntimeError_running_loop, st)).
Proof.
  intros Hact Hco. unfold trace_llm_call_sync, asyncio_run, call_func.
  rewrite Hact, Hco. cbn [negb].
  split; [reflexivity|]. split; [reflexivity|]. split; intros ->.
  - by destruct (fn_body f args kwargs st).
  - reflexivity.
Qed.


End PassThrough.

Lemma trace_llm_call_sync_inactive_coroutine_witness :
  trace_llm_call_sync sample_utils (sample_probe "c-1" false) acompletion [] []
    (init false []) = (Returned (VStr "ok"), init false []) /\
  call_func acompletion [] [] (init false [])
    = (Returned (VCoroutine "acompletion"), init false []) /\
  trace_llm_call_sync sample_utils (sample_probe "c-1" true) acompletion [] []
    (init false []) = (Raised RuntimeError_running_loop, init false []).
Proof.
  pose proof (trace_llm_call_sync_inactive_coroutine sample_utils
                (sample_probe "c-1" false) acompletion [] [] (init false [])
                eq_refl eq_refl) as (_ & Hplain & Hrun & _).
  pose proof (trace_llm_call_sync_inactive_coroutine sample_utils
                (sample_probe "c-1" true) acompletion [] [] (init false [])
                eq_refl eq_refl) as (_ & _ & _ & Hloop).
  split; [|split; [exact Hplain | exact (Hloop eq_refl)]].
  destruct (Hrun eq_refl) as [Ho Hs].
  rewrite (surjective_pairing (trace_llm_call_sync _ _ _ _ _ _)), Ho, Hs.
  reflexivity.
Defined.



(** ** Component builder: what is built and what is left alone *)

Section Builder.

Implicit Types (st : tracer) (parameters : dict).

Ltac run_builder :=
  unfold create_llm_component, heap_alloc, span;
  cbn [span_attributes_dict set_total_tokens set_total_cost];
  match goal with
  | |- context [span_attributes_dict ?st !! ?k] =>
      destruct (span_attributes_dict st !! k) as [sa|]
  end.

(** The dictionary is new: it goes to the end of the store. *)
Lemma create_llm_component_ref
    component_id hash_id name llm_type version memory_used start_time end_time
    input_data output_data cost usage error parameters st :
  (create_llm_component component_id hash_id name llm_type version memory_used
     start_time end_time input_data output_data cost usage error parameters st).1
  = length (heap st).
Proof. run_builder; reflexivity. Qed.

Lemma create_llm_component_fields
    component_id hash_id name llm_type version memory_used start_time end_time
    input_data output_data cost usage error parameters st :
  exists c,
    heap (create_llm_component component_id hash_id name llm_type version
            memory_used start_time end_time input_data output_data cost usage
            error parameters st).2 = (heap st ++ [c])%list /\
    dict_get "id" c = Some (VStr component_id) /\
    dict_get "error" c = Some error /\
    dict_get "extra_info" c = Some (VDict parameters) /\
    dict_get "info" c =
      Some (VDict (dict_update
                     [("model", VStr llm_type); ("version", version);
                      ("memory_used", VInt memory_used); ("cost", cost_to_val cost);
                      ("tokens", usage_to_val usage);
                      ("tags", VList (map VStr (sa_tags (span (Some name) st))))]
                     (parameters_to_display parameters))) /\
    dict_get "network_calls" c =
      Some (VList (if auto_instrument_network st
                   then default [] (component_network_calls st !! component_id)
                   else [])) /\
    dict_get "interactions" c =
      Some (VList (if auto_instrument_user_interaction st
                   then default [] (component_user_interaction st !! component_id)
                   else [])) /\
    dict_get "metrics" c =
      Some (VList (map metric_to_val
                     (rename_metrics (visited_metrics st)
                        (sa_metrics (span (Some name) st))).1)).
Proof.
  run_builder; eexists; (split; [reflexivity|]); repeat split; reflexivity.
Qed.

(** The builder touches the counters, the visited names, the attributes of
    its span name and the store; nothing else. *)
Lemma create_llm_component_frame
    component_id hash_id name llm_type version memory_used start_time end_time
    input_data output_data cost usage error parameters st :
  let st' := (create_llm_component component_id hash_id name llm_type version
                memory_used start_time end_time input_data output_data cost
                usage error parameters st).2 in
  components st' = components st /\
  agent_children st' = agent_children st /\
  current_agent_id st' = current_agent_id st /\
  component_network_calls st' = component_network_calls st /\
  component_user_interaction st' = component_user_interaction st /\
  current_component_id st' = current_component_id st /\
  llm_data st' = llm_data st /\
  total_tokens st' = total_tokens st + num_get "total_tokens" usage 0 /\
  total_cost st' = (total_cost st + num_get "total_cost" cost 0)%Qc /\
  visited_metrics st' =
    (rename_metrics (visited_metrics st) (sa_metrics (span (Some name) st))).2.
Proof.
  run_builder; repeat split; reflexivity.
Qed.

End Builder.

(** ** Buffers of a component id *)

(** C7, as amended.  [start_component] opens an empty network-call buffer for
    the id and makes the id current; it opens no user-interaction buffer.
    [end_component] only clears the current id.  Building the component
    copies the buffers' contents into it (the network calls when network
    auto-instrumentation is on, the interactions when user-interaction
    auto-instrumentation is on) and leaves both buffer tables as they were:
    no entry is ever removed. *)
Theorem buffers_outlive_component
    (component_id hash_id name llm_type : string) (version : pyval)
    (memory_used : Z) (start_time end_time : string) (input_data : dict)
    (output_data : option pyval) (cost : list (string * Qc))
    (usage : list (string * Z)) (error : pyval) (parameters : dict)
    (st : tracer) :
  let built := create_llm_component component_id hash_id name llm_type version
                 memory_used start_time end_time input_data output_data cost
                 usage error parameters st in
  component_network_calls (start_component component_id st) !! component_id = Some [] /\
  current_component_id (start_component component_id st) = Some component_id /\
  component_user_interaction (start_component component_id st)
    = component_user_interaction st /\
  component_network_calls (end_component component_id st) = component_network_calls st /\
  component_user_interaction (end_component component_id st)
    = component_user_interaction st /\
  current_component_id (end_component component_id st) = None /\
  component_network_calls built.2 = component_network_calls st /\
  component_user_interaction built.2 = component_user_interaction st /\
  exists c,
    heap built.2 !! built.1 = Some c /\
    dict_get "network_calls" c =
      Some (VList (if auto_instrument_network st
                   then default [] (component_network_calls st !! component_id)
                   else [])) /\
    dict_get "interactions" c =
      Some (VList (if auto_instrument_user_interaction st
                   then default [] (component_user_interaction st !! component_id)
                   else [])).
Proof.
  intros built.
  destruct (create_llm_component_frame component_id hash_id name llm_type version
              memory_used start_time end_time input_data output_data cost usage
              error parameters st) as (_ & _ & _ & Hnc & Hui & _).
  destruct (create_llm_component_fields component_id hash_id name llm_type version
              memory_used start_time end_time input_data output_data cost usage
              error parameters st) as (c & Hheap & _ & _ & _ & _ & Hn & Hi & _).
  split; [apply lookup_insert_eq|].
  do 5 (split; [reflexivity|]).
  split; [exact Hnc|]. split; [exact Hui|].
  exists c. split; [|by split].
  subst built. rewrite create_llm_component_ref, Hheap.
  by rewrite lookup_app_r, Nat.sub_diag.
Qed.

(** C7 as stated fails: after a complete traced call (start, end, build,
    publish) the buffer opened for the component id is still in the tracer. *)
Lemma buffer_not_discarded_after_end :
  let res := trace_llm_call_sync sample_utils (sample_probe "c-1" false)
               completion [] [] live_tracer in
  res.1 = Returned (VStr "ok") /\
  components res.2 = [1%nat] /\
  current_component_id res.2 = None /\
  component_network_calls res.2 !! "c-1" = Some [].
Proof. cbn zeta. repeat split; vm_compute; reflexivity. Qed.

(** ** Display projection of the parameters *)

Section Display.

Implicit Types (d e : dict) (k : string) (v : pyval).

Lemma dict_set_elem k v d kv :
  kv ∈ dict_set k v d -> kv = (k, v) \/ kv ∈ d.
Proof.
  induction d as [|[k' v'] d IH]; simpl.
  - intros H. apply list_elem_of_singleton in H. by left.
  - destruct (String.eqb k k').
    + intros H. apply elem_of_cons in H as [H|H]; [by left|].
      right. by right.
    + intros H. apply elem_of_cons in H as [H|H].
      * right. rewrite H. by left.
      * destruct (IH H) as [?|?]; [by left|]. right. by right.
Qed.

Lemma dict_set_fresh k v d :
  k ∉ map fst d -> dict_set k v d = (d ++ [(k, v)])%list.
Proof.
  induction d as [|[k' v'] d IH]; simpl; [reflexivity|].
  intros Hk. destruct (String.eqb_spec k k') as [->|Hne].
  - exfalso. apply Hk. by left.
  - rewrite IH; [reflexivity|]. intros H. apply Hk. by right.
Qed.

Lemma dict_update_elem e : forall d kv,
  kv ∈ dict_update d e -> kv ∈ d \/ kv ∈ e.
Proof.
  unfold dict_update.
  induction e as [|[k v] e IH]; intros d kv; simpl; [by left|].
  intros H. destruct (IH _ _ H) as [H1|H1].
  - destruct (dict_set_elem _ _ _ _ H1) as [->|?]; [right; by left | by left].
  - right. by right.
Qed.

Lemma keep_scalars_elem l : forall acc kv,
  kv ∈ fold_left keep_scalars l acc ->
  kv ∈ acc \/ (kv ∈ l /\ is_scalar kv.2 = true).
Proof.
  induction l as [|[k v] l IH]; intros acc kv; simpl; [by left|].
  intros H. destruct (IH _ _ H) as [H1|[H1 H2]].
  - unfold keep_scalars in H1. simpl in H1.
    destruct (is_scalar v) eqn:Hs; [|by left].
    destruct (dict_set_elem _ _ _ _ H1) as [->|?]; [|by left].
    right. split; [by left | exact Hs].
  - right. split; [by right | exact H2].
Qed.

Lemma keep_scalars_fresh l : forall acc,
  NoDup (map fst acc ++ map fst l) ->
  fold_left keep_scalars l acc
  = (acc ++ filter (fun kv => is_scalar kv.2 = true) l)%list.
Proof.
  induction l as [|[k v] l IH]; intros acc Hnd; simpl.
  - by rewrite app_nil_r.
  - assert (Hk : k ∉ map fst acc).
    { apply list.NoDup_app in Hnd as (_ & Hdis & _). intros Hin.
      apply (Hdis _ Hin). by left. }
    unfold keep_scalars at 2. simpl. rewrite filter_cons. simpl.
    destruct (is_scalar v) eqn:Hs.
    + rewrite decide_True by reflexivity.
      rewrite dict_set_fresh by exact Hk. rewrite IH.
      * by rewrite <- app_assoc.
      * rewrite map_app, <- app_assoc. exact Hnd.
    + rewrite decide_False by discriminate.
      apply IH. simpl in Hnd.
      apply list.NoDup_app in Hnd as (Ha & Hdis & Hl).
      apply list.NoDup_app. split; [exact Ha|]. split.
      * intros x Hx Hx'. apply (Hdis _ Hx). by right.
      * by apply list.NoDup_cons in Hl as [_ ?].
Qed.

Lemma parameters_to_display_unfold parameters :
  parameters_to_display parameters =
  take MAX_PARAMETERS_TO_DISPLAY
    (fold_left keep_scalars parameters
       match dict_get "run_manager" parameters with
       | Some (VObj (Some metadata)) => dict_update [] metadata
       | _ => []
       end).
Proof. reflexivity. Qed.

Lemma dict_get_absent k d : k ∉ map fst d -> dict_get k d = None.
Proof.
  induction d as [|[k' v'] d IH]; simpl; [reflexivity|].
  intros Hk. destruct (String.eqb_spec k k') as [->|Hne].
  - exfalso. apply Hk. by left.
  - apply IH. intros H. apply Hk. by right.
Qed.

Lemma dict_update_fresh e : forall d,
  NoDup (map fst d ++ map fst e) -> dict_update d e = (d ++ e)%list.
Proof.
  unfold dict_update. induction e as [|[k v] e IH]; intros d Hnd; simpl.
  - by rewrite app_nil_r.
  - assert (Hk : k ∉ map fst d).
    { apply list.NoDup_app in Hnd as (_ & Hdis & _). intros Hin.
      apply (Hdis _ Hin). by left. }
    rewrite dict_set_fresh by exact Hk. rewrite IH.
    + by rewrite <- app_assoc.
    + rewrite map_app, <- app_assoc. exact Hnd.
Qed.

Lemma shown_value_nil kv : shown_value [] kv = kv.
Proof. reflexivity. Qed.

Lemma shown_value_other k v l kv :
  kv.1 <> k -> shown_value ((k, v) :: l) kv = shown_value l kv.
Proof.
  intros Hne. unfold shown_value. simpl.
  destruct (String.eqb_spec kv.1 k); [congruence | reflexivity].
Qed.

Lemma shown_value_map_other k v l d :
  k ∉ map fst d -> map (shown_value ((k, v) :: l)) d = map (shown_value l) d.
Proof.
  induction d as [|kv d IH]; intros Hk; simpl; [reflexivity|].
  rewrite shown_value_other, IH; [reflexivity| |].
  - intros H. apply Hk. by right.
  - intros H. apply Hk. simpl. rewrite <- H. by left.
Qed.

(** Overwriting a key that is there keeps the keys, and shows as the new
    value at the old place. *)
Lemma dict_set_present k v l d :
  is_scalar v = true ->
  k ∉ map fst l ->
  NoDup (map fst d) ->
  k ∈ map fst d ->
  map fst (dict_set k v d) = map fst d /\
  map (shown_value l) (dict_set k v d) = map (shown_value ((k, v) :: l)) d.
Proof.
  intros Hs Hkl. induction d as [|[k0 v0] d IH]; intros Hnd Hin.
  - by apply elem_of_nil in Hin.
  - simpl in Hnd. apply list.NoDup_cons in Hnd as [Hk0 Hnd].
    cbn [dict_set]. destruct (String.eqb_spec k k0) as [<-|Hne].
    + split; [reflexivity|]. cbn [map].
      rewrite (shown_value_map_other k v l d Hk0). f_equal.
      unfold shown_value. cbn [fst dict_get].
      rewrite String.eqb_refl, Hs. by rewrite (dict_get_absent k l Hkl).
    + assert (Hin' : k ∈ map fst d).
      { simpl in Hin. apply elem_of_cons in Hin as [?|?]; [congruence | done]. }
      destruct (IH Hnd Hin') as [IH1 IH2].
      split; [cbn [map fst]; by rewrite IH1|].
      cbn [map]. rewrite IH2. f_equal.
      symmetry. apply shown_value_other. simpl. congruence.
Qed.

Lemma filter_ext_in {A} (P Q : A -> Prop) `{!forall x, Decision (P x)}
    `{!forall x, Decision (Q x)} (l : list A) :
  (forall x, x ∈ l -> P x <-> Q x) -> filter P l = filter Q l.
Proof.
  induction l as [|x l IH]; intros Hext; [reflexivity|].
  rewrite !filter_cons.
  rewrite IH by (intros y Hy; apply Hext; by right).
  destruct (decide (P x)) as [HP|HP]; destruct (decide (Q x)) as [HQ|HQ];
    try reflexivity; exfalso.
  - apply HQ. apply (Hext x); [by left | exact HP].
  - apply HP. apply (Hext x); [by left | exact HQ].
Qed.

(** The loop over the parameters, started on the metadata [acc]: the entries
    of [acc] stay where they are and take the values of scalar parameters of
    the same key; the other scalar parameters follow in their order. *)
Lemma keep_scalars_general l : forall acc,
  NoDup (map fst acc) ->
  NoDup (map fst l) ->
  fold_left keep_scalars l acc =
    (map (shown_value l) acc ++
     filter (fun kv => is_scalar kv.2 = true /\ kv.1 ∉ map fst acc) l)%list.
Proof.
  induction l as [|[k v] l IH]; intros acc Hacc Hl.
  - simpl. rewrite app_nil_r. induction acc as [|kv acc IHacc]; [reflexivity|].
    simpl in *. apply list.NoDup_cons in Hacc as [_ Hacc].
    by rewrite <- IHacc.
  - simpl in Hl. apply list.NoDup_cons in Hl as [Hk Hl].
    cbn [fold_left]. unfold keep_scalars at 2. cbn [fst snd].
    rewrite filter_cons. cbn [fst snd].
    destruct (is_scalar v) eqn:Hs.
    + destruct (decide (k ∈ map fst acc)) as [Hin|Hin].
      * destruct (dict_set_present k v l acc Hs Hk Hacc Hin) as [Hkeys Hmap].
        rewrite IH; [|by rewrite Hkeys|exact Hl].
        rewrite Hmap, Hkeys.
        rewrite decide_False by (intros [_ H]; by apply H). reflexivity.
      * rewrite dict_set_fresh by exact Hin.
        rewrite IH; [|rewrite map_app; apply list.NoDup_app; split; [exact Hacc|];
                      split; [|apply NoDup_singleton];
                      intros x Hx Hx'; apply list_elem_of_singleton in Hx';
                      by subst|exact Hl].
        rewrite decide_True by (split; [reflexivity | exact Hin]).
        rewrite map_app. cbn [map].
        rewrite (shown_value_map_other k v l acc Hin).
        assert (Hkv : shown_value l (k, v) = (k, v)).
        { unfold shown_value. cbn [fst]. by rewrite (dict_get_absent k l Hk). }
        rewrite Hkv, <- app_assoc. cbn [app]. do 2 f_equal.
        apply filter_ext_in. intros [k1 v1] Hin1. cbn [fst snd].
        rewrite map_app. cbn [map fst]. rewrite elem_of_app.
        split; intros [H1 H2]; (split; [exact H1|]).
        -- intros H. apply H2. by left.
        -- intros [H|H]; [by apply H2|].
           apply list_elem_of_singleton in H. subst k1.
           apply Hk. apply list_elem_of_fmap. by exists (k, v1).
    + rewrite decide_False by (intros [H _]; discriminate H).
      rewrite IH by assumption. f_equal.
      destruct (decide (k ∈ map fst acc)) as [Hin|Hin].
      * clear IH. induction acc as [|[k0 v0] acc IHacc]; [reflexivity|].
        simpl in Hacc. apply list.NoDup_cons in Hacc as [Hk0 Hacc].
        cbn [map]. f_equal.
        -- unfold shown_value. cbn [fst dict_get].
           destruct (String.eqb_spec k0 k) as [->|Hne]; [|reflexivity].
           by rewrite Hs, (dict_get_absent k l Hk).
        -- destruct (decide (k ∈ map fst acc)) as [Hin'|Hin'].
           ++ by apply IHacc.
           ++ symmetry. by apply shown_value_map_other.
      * symmetry. by apply shown_value_map_other.
Qed.

End Display.

(** C8, as amended.  The display projection has at most ten entries.  Each of
    them is either a scalar-valued entry of the parameters or an entry of the
    metadata of the [run_manager] parameter.  That metadata is merged in
    first and unfiltered: the projection is the first ten entries of the
    metadata, in the metadata's order and with structured values included
    (an entry takes the value of the scalar parameter of the same key when
    there is one), followed by the scalar-valued parameters whose key is not
    in the metadata, in the order of the parameters.  When the parameters
    carry no such metadata, the projection is exactly the first ten
    scalar-valued parameters in the order of the parameters.  The built
    component keeps all parameters in [extra_info] and spreads the projection
    into [info]. *)
Theorem display_projection
    (component_id hash_id name llm_type : string) (version : pyval)
    (memory_used : Z) (start_time end_time : string) (input_data : dict)
    (output_data : option pyval) (cost : list (string * Qc))
    (usage : list (string * Z)) (error : pyval) (parameters : dict)
    (st : tracer) :
  let shown := parameters_to_display parameters in
  let built := create_llm_component component_id hash_id name llm_type version
                 memory_used start_time end_time input_data output_data cost
                 usage error parameters st in
  (length shown <= 10)%nat /\
  (forall kv, kv ∈ shown ->
     (kv ∈ parameters /\ is_scalar kv.2 = true) \/
     (exists metadata,
        dict_get "run_manager" parameters = Some (VObj (Some metadata)) /\
        kv ∈ metadata)) /\
  (forall metadata,
     dict_get "run_manager" parameters = Some (VObj (Some metadata)) ->
     NoDup (map fst metadata) ->
     NoDup (map fst parameters) ->
     shown = take 10 (map (shown_value parameters) metadata ++
                      filter (fun kv => is_scalar kv.2 = true /\
                                        kv.1 ∉ map fst metadata) parameters)) /\
  ((forall metadata,
      dict_get "run_manager" parameters <> Some (VObj (Some metadata))) ->
   NoDup (map fst parameters) ->
   shown = take 10 (filter (fun kv => is_scalar kv.2 = true) parameters)) /\
  exists c,
    heap built.2 !! built.1 = Some c /\
    dict_get "extra_info" c = Some (VDict parameters) /\
    dict_get "info" c =
      Some (VDict (dict_update
                     [("model", VStr llm_type); ("version", version);
                      ("memory_used", VInt memory_used); ("cost", cost_to_val cost);
                      ("tokens", usage_to_val usage);
                      ("tags", VList (map VStr (sa_tags (span (Some name) st))))]
                     shown)).
Proof.
  intros shown built. subst shown. rewrite parameters_to_display_unfold.
  split; [rewrite length_take; unfold MAX_PARAMETERS_TO_DISPLAY; lia|].
  split; [|split; [|split]].
  - intros kv Hkv. apply (subseteq_take _ _ kv) in Hkv.
    apply keep_scalars_elem in Hkv as [Hmd|Hsc]; [|by left].
    right. destruct (dict_get "run_manager" parameters) as [[]|];
      try (by apply elem_of_nil in Hmd).
    destruct metadata as [metadata|]; [|by apply elem_of_nil in Hmd].
    exists metadata. split; [reflexivity|].
    apply dict_update_elem in Hmd as [Hmd|Hmd]; [by apply elem_of_nil in Hmd|done].
  - intros metadata Hrm Hmd Hnd. rewrite Hrm.
    rewrite (dict_update_fresh metadata []) by exact Hmd. cbn [app].
    rewrite keep_scalars_general by assumption. reflexivity.
  - intros Hno Hnd.
    destruct (dict_get "run_manager" parameters) as [[| | | | | | |[metadata|]|]|];
      try (rewrite keep_scalars_fresh by exact Hnd; reflexivity).
    by destruct (Hno metadata).
  - destruct (create_llm_component_fields component_id hash_id name llm_type
                version memory_used start_time end_time input_data output_data
                cost usage error parameters st)
      as (c & Hheap & _ & _ & Hextra & Hinfo & _).
    exists c. split; [|by split].
    subst built. rewrite create_llm_component_ref, Hheap.
    by rewrite lookup_app_r, Nat.sub_diag.
Qed.

(** C8 as stated fails: the metadata of a [run_manager] parameter enters the
    display projection unfiltered, here with a list as value, and ahead of
    the parameters proper. *)
Lemma display_projection_shows_structured_metadata :
  parameters_to_display langchain_parameters =
    [("callbacks", VList [VStr "handler"]); ("temperature", VInt 1);
     ("model", VStr "model-x")] /\
  is_scalar (VList [VStr "handler"]) = false.
Proof. split; reflexivity. Qed.

Lemma display_projection_witness :
  parameters_to_display plain_parameters =
    [("temperature", VInt 1); ("stream", VBool false); ("model", VStr "model-x")] /\
  parameters_to_display langchain_parameters =
    [("callbacks", VList [VStr "handler"]); ("temperature", VInt 1);
     ("model", VStr "model-x")].
Proof.
  assert (Hkeys : forall ks : list string,
            (fix nodup (l : list string) : bool :=
               match l with
               | [] => true
               | k :: l' => negb (existsb (String.eqb k) l') && nodup l'
               end) ks = true -> NoDup ks).
  { induction ks as [|k ks IH]; [constructor|].
    intros H. apply andb_prop in H as [Hk Hks].
    apply list.NoDup_cons. split; [|by apply IH].
    intros Hin. apply negb_true_iff in Hk.
    assert (existsb (String.eqb k) ks = true); [|congruence].
    apply existsb_exists. exists k. split; [|apply String.eqb_refl].
    by apply list_elem_of_In. }
  destruct (display_projection "c-1" "h" "completion" "model-x" VNone 0
              "t0" "t1" [] None [] [] VNone plain_parameters live_tracer)
    as (_ & _ & _ & Hplain & _).
  destruct (display_projection "c-1" "h" "completion" "model-x" VNone 0
              "t0" "t1" [] None [] [] VNone langchain_parameters live_tracer)
    as (_ & _ & Hmeta & _).
  split.
  - rewrite Hplain.
    + reflexivity.
    + intros metadata. discriminate.
    + apply Hkeys; reflexivity.
  - rewrite (Hmeta [("callbacks", VList [VStr "handler"])]).
    + reflexivity.
    + reflexivity.
    + apply Hkeys; reflexivity.
    + apply Hkeys; reflexivity.
Defined.

(** ** Metric names *)

Section MetricNames.








End MetricNames.




(** ** Adapter: the failure path *)

Section Failure.

Variable U : llm_utils.
Implicit Types (pr : probe) (f : callable) (args : list pyval) (kwargs : dict)
  (st : tracer) (e : exn).

Lemma add_component_published r is_error st :
  published_once st (add_component r is_error st) r /\
  heap (add_component r is_error st) = heap st.
Proof.
  unfold published_once, add_component.
  destruct (current_agent_id st); by repeat split.
Qed.

(** Building a component on the tracer [st1] and publishing it, with or
    without recording it in [llm_data] first. *)
Lemma build_then_publish
    component_id hash_id name llm_type version memory_used start_time end_time
    input_data output_data cost usage error parameters is_error
    (record : bool) st1 :
  let built := create_llm_component component_id hash_id name llm_type version
                 memory_used start_time end_time input_data output_data cost
                 usage error parameters (end_component component_id st1) in
  let st2 := if record then set_llm_data built.1 built.2 else built.2 in
  let st3 := add_component built.1 is_error st2 in
  exists c,
    heap st3 = (heap st1 ++ [c])%list /\
    dict_get "error" c = Some error /\
    published_once st1 st3 (length (heap st1)).
Proof.
  intros built st2 st3.
  destruct (create_llm_component_fields component_id hash_id name llm_type
              version memory_used start_time end_time input_data output_data
              cost usage error parameters (end_component component_id st1))
    as (c & Hheap & _ & Herr & _).
  destruct (create_llm_component_frame component_id hash_id name llm_type
              version memory_used start_time end_time input_data output_data
              cost usage error parameters (end_component component_id st1))
    as (Hc & Hch & Hag & _).
  fold built in Hheap, Hc, Hch, Hag.
  assert (Hr : built.1 = length (heap st1)).
  { subst built. by rewrite create_llm_component_ref. }
  destruct (add_component_published built.1 is_error st2) as [Hpub Hh].
  fold st3 in Hpub, Hh.
  assert (E2 : heap st2 = heap built.2 /\ components st2 = components built.2 /\
               agent_children st2 = agent_children built.2 /\
               current_agent_id st2 = current_agent_id built.2).
  { subst st2. by destruct record. }
  destruct E2 as (E2h & E2c & E2ch & E2a).
  exists c. split; [by rewrite Hh, E2h, Hheap|]. split; [exact Herr|].
  revert Hpub. unfold published_once.
  rewrite E2a, Hag, E2c, E2ch, Hc, Hch, Hr. cbn [end_component].
  change (current_agent_id (set_current_component_id None st1))
    with (current_agent_id st1).
  change (components (set_current_component_id None st1)) with (components st1).
  change (agent_children (set_current_component_id None st1))
    with (agent_children st1).
  done.
Qed.

Lemma trace_llm_call_sync_failure pr f args kwargs st e st1 :
  is_active st = true ->
  auto_instrument_llm st = true ->
  exc_is_exception e = true ->
  execute_sync pr f args kwargs (start_component (uuid4 pr) st) = (Raised e, st1) ->
  failure_recorded (trace_llm_call_sync U pr f args kwargs st) e st1.
Proof.
  intros Hact Hauto Hexc Hrun. unfold trace_llm_call_sync.
  rewrite Hact, Hauto. cbn [negb]. rewrite Hrun, Hexc.
  pose proof (build_then_publish (uuid4 pr) (fn_hash f)
                (default (fn_name f) (current_llm_call_name (end_component (uuid4 pr) st1)))
                "unknown" VNone (Z.max 0 (rss_end pr - rss_start pr))
                (now_start pr) (now_end pr)
                (extract_input_data U args kwargs VNone) None [] []
                (VDict (error_component e)) [] true true st1) as H.
  cbn zeta in H.
  destruct (create_llm_component _ _ _ _ _ _ _ _ _ _ _ _ _ _ _) as [r st2].
  split; [reflexivity|]. exact H.
Qed.

Lemma trace_llm_call_failure pr f args kwargs st e st1 :
  is_active st = true ->
  auto_instrument_llm st = true ->
  exc_is_exception e = true ->
  await_func f args kwargs (start_component (uuid4 pr) st) = (Raised e, st1) ->
  failure_recorded (trace_llm_call U pr f args kwargs st) e st1.
Proof.
  intros Hact Hauto Hexc Hrun. unfold trace_llm_call.
  rewrite Hact, Hauto. cbn [negb]. rewrite Hrun, Hexc.
  pose proof (build_then_publish (uuid4 pr) (fn_hash f)
                (default (fn_name f) (current_llm_call_name (end_component (uuid4 pr) st1)))
                "unknown" VNone 0 (now_start pr) (now_end pr)
                (extract_input_data U args kwargs VNone) None [] []
                (VDict (error_component e)) [] false false st1) as H.
  cbn zeta in H.
  destruct (create_llm_component _ _ _ _ _ _ _ _ _ _ _ _ _ _ _) as [r st2].
  split; [reflexivity|]. exact H.
Qed.

Lemma trace_llm_call_sync_not_caught pr f args kwargs st e st1 :
  is_active st = true ->
  auto_instrument_llm st = true ->
  exc_is_exception e = false ->
  execute_sync pr f args kwargs (start_component (uuid4 pr) st) = (Raised e, st1) ->
  trace_llm_call_sync U pr f args kwargs st = (Raised e, st1).
Proof.
  intros Hact Hauto Hexc Hrun. unfold trace_llm_call_sync.
  rewrite Hact, Hauto. cbn [negb]. by rewrite Hrun, Hexc.
Qed.

Lemma trace_llm_call_not_caught pr f args kwargs st e st1 :
  is_active st = true ->
  auto_instrument_llm st = true ->
  exc_is_exception e = false ->
  await_func f args kwargs (start_component (uuid4 pr) st) = (Raised e, st1) ->
  trace_llm_call U pr f args kwargs st = (Raised e, st1).
Proof.
  intros Hact Hauto Hexc Hrun. unfold trace_llm_call.
  rewrite Hact, Hauto. cbn [negb]. by rewrite Hrun, Hexc.
Qed.

(** C2, as amended.  On an active tracer with LLM auto-instrumentation on,
    when the wrapped call raises an [e] that is an instance of [Exception],
    either adapter builds one component whose error envelope carries the
    name of [e]'s type and [e]'s message, publishes it once, and hands the
    very same [e] on to its caller.  When [e] is not an instance of
    [Exception], the [except] clause does not apply: the same [e] goes to the
    caller and the tracer is left as the wrapped call left it, with nothing
    built or published. *)
Theorem failure_builds_routes_reraises pr f args kwargs st e :
  is_active st = true ->
  auto_instrument_llm st = true ->
  (exc_is_exception e = true ->
   dict_get "type" (error_component e) = Some (VStr (exc_type e)) /\
   dict_get "message" (error_component e) = Some (VStr (exc_msg e)) /\
   (forall st1,
      execute_sync pr f args kwargs (start_component (uuid4 pr) st) = (Raised e, st1) ->
      failure_recorded (trace_llm_call_sync U pr f args kwargs st) e st1) /\
   (forall st1,
      await_func f args kwargs (start_component (uuid4 pr) st) = (Raised e, st1) ->
      failure_recorded (trace_llm_call U pr f args kwargs st) e st1)) /\
  (exc_is_exception e = false ->
   (forall st1,
      execute_sync pr f args kwargs (start_component (uuid4 pr) st) = (Raised e, st1) ->
      trace_llm_call_sync U pr f args kwargs st = (Raised e, st1)) /\
   (forall st1,
      await_func f args kwargs (start_component (uuid4 pr) st) = (Raised e, st1) ->
      trace_llm_call U pr f args kwargs st = (Raised e, st1))).
Proof.
  intros Hact Hauto. split; intros Hexc.
  - do 2 (split; [reflexivity|]). split; intros st1 Hrun.
    + by apply trace_llm_call_sync_failure.
    + by apply trace_llm_call_failure.
  - split; intros st1 Hrun.
    + by apply trace_llm_call_sync_not_caught.
    + by apply trace_llm_call_not_caught.
Qed.

End Failure.

Lemma failure_builds_routes_reraises_witness :
  failure_recorded
    (trace_llm_call_sync sample_utils (sample_probe "c-1" false)
       failing_completion [] [] live_tracer)
    bad_request (start_component "c-1" live_tracer) /\
  failure_recorded
    (trace_llm_call sample_utils (sample_probe "c-1" false)
       failing_acompletion [] [] live_tracer)
    bad_request (start_component "c-1" live_tracer) /\
  trace_llm_call sample_utils (sample_probe "c-1" false)
    cancelled_acompletion [] [] live_tracer
    = (Raised cancelled, start_component "c-1" live_tracer).
Proof.
  destruct (failure_builds_routes_reraises sample_utils (sample_probe "c-1" false)
              failing_completion [] [] live_tracer bad_request eq_refl eq_refl)
    as [Hs _].
  destruct (failure_builds_routes_reraises sample_utils (sample_probe "c-1" false)
              failing_acompletion [] [] live_tracer bad_request eq_refl eq_refl)
    as [Ha _].
  destruct (failure_builds_routes_reraises sample_utils (sample_probe "c-1" false)
              cancelled_acompletion [] [] live_tracer cancelled eq_refl eq_refl)
    as [_ Hc].
  destruct (Hs eq_refl) as (_ & _ & Hsync & _).
  destruct (Ha eq_refl) as (_ & _ & _ & Hasync).
  destruct (Hc eq_refl) as (_ & Hcancel).
  split; [apply Hsync; reflexivity|].
  split; [apply Hasync; reflexivity | apply Hcancel; reflexivity].
Defined.

(** C2 as stated fails: a task cancelled while it awaits the client, and a
    keyboard interrupt during a blocking call.  Neither fault is an instance
    of [Exception]; no component is built, nothing is published, and the
    component id stays current. *)
Lemma non_exception_fault_builds_nothing :
  let pr := sample_probe "c-1" false in
  let res := trace_llm_call sample_utils pr cancelled_acompletion [] [] live_tracer in
  let res' := trace_llm_call_sync sample_utils pr interrupted_completion [] []
                live_tracer in
  res.1 = Raised cancelled /\
  routed res.2 = [] /\
  heap res.2 = heap live_tracer /\
  current_component_id res.2 = Some "c-1" /\
  res'.1 = Raised interrupted /\
  routed res'.2 = [] /\
  heap res'.2 = heap live_tracer.
Proof. cbn zeta. repeat split; vm_compute; reflexivity. Qed.

(** ** Adapter: the success path *)

Section Success.

Variable U : llm_utils.
Implicit Types (pr : probe) (f : callable) (args : list pyval) (kwargs : dict)
  (st : tracer).

(** The synchronous adapter publishes the component of a call that returns. *)
Lemma trace_llm_call_sync_success pr f args kwargs st result st1 :
  is_active st = true ->
  auto_instrument_llm st = true ->
  execute_sync pr f args kwargs (start_component (uuid4 pr) st) = (Returned result, st1) ->
  let res := trace_llm_call_sync U pr f args kwargs st in
  res.1 = Returned result /\
  llm_data res.2 = length (heap st1) /\
  exists c,
    heap res.2 = (heap st1 ++ [c])%list /\
    dict_get "error" c = Some VNone /\
    published_once st1 res.2 (length (heap st1)).
Proof.
  intros Hact Hauto Hrun. unfold trace_llm_call_sync.
  rewrite Hact, Hauto. cbn [negb]. rewrite Hrun.
  set (model_name := extract_model_name U args kwargs result).
  set (usage := extract_token_usage U result).
  pose proof (build_then_publish (uuid4 pr) (fn_hash f)
                (default (fn_name f) (current_llm_call_name (end_component (uuid4 pr) st1)))
                model_name VNone (Z.max 0 (rss_end pr - rss_start pr))
                (now_start pr) (now_end pr)
                (extract_input_data U args kwargs result)
                (extract_llm_output U result)
                (calculate_llm_cost U usage model_name (model_costs st1)) usage
                VNone (extract_parameters U kwargs) false true st1) as H.
  pose proof (create_llm_component_ref (uuid4 pr) (fn_hash f)
                (default (fn_name f) (current_llm_call_name (end_component (uuid4 pr) st1)))
                model_name VNone (Z.max 0 (rss_end pr - rss_start pr))
                (now_start pr) (now_end pr)
                (extract_input_data U args kwargs result)
                (extract_llm_output U result)
                (calculate_llm_cost U usage model_name (model_costs st1)) usage
                VNone (extract_parameters U kwargs)
                (end_component (uuid4 pr) st1)) as Hr.
  cbn zeta in H.
  destruct (create_llm_component _ _ _ _ _ _ _ _ _ _ _ _ _ _ _) as [r st2].
  cbn zeta. split; [reflexivity|]. split; [|exact H].
  unfold add_component. cbn [fst] in Hr.
  destruct (current_agent_id _); exact Hr.
Qed.

(** The asynchronous adapter builds the component of a call that returns and
    keeps it in [llm_data]; it publishes nothing. *)
Lemma trace_llm_call_success pr f args kwargs st result st1 :
  is_active st = true ->
  auto_instrument_llm st = true ->
  await_func f args kwargs (start_component (uuid4 pr) st) = (Returned result, st1) ->
  let res := trace_llm_call U pr f args kwargs st in
  res.1 = Returned result /\
  llm_data res.2 = length (heap st1) /\
  (exists c, heap res.2 = (heap st1 ++ [c])%list) /\
  components res.2 = components st1 /\
  agent_children res.2 = agent_children st1.
Proof.
  intros Hact Hauto Hrun. unfold trace_llm_call.
  rewrite Hact, Hauto. cbn [negb]. rewrite Hrun.
  set (model_name := extract_model_name U args kwargs result).
  set (usage := extract_token_usage U result).
  set (name := default (fn_name f) (current_llm_call_name (end_component (uuid4 pr) st1))).
  set (cost := calculate_llm_cost U usage model_name (model_costs st1)).
  pose proof (create_llm_component_ref (uuid4 pr) (fn_hash f) name
                model_name VNone (Z.max 0 (rss_end pr - rss_start pr))
                (now_start pr) (now_end pr)
                (extract_input_data U args kwargs result)
                (extract_llm_output U result) cost usage
                VNone (extract_parameters U kwargs)
                (end_component (uuid4 pr) st1)) as Hr.
  destruct (create_llm_component_fields (uuid4 pr) (fn_hash f) name
                model_name VNone (Z.max 0 (rss_end pr - rss_start pr))
                (now_start pr) (now_end pr)
                (extract_input_data U args kwargs result)
                (extract_llm_output U result) cost usage
                VNone (extract_parameters U kwargs)
                (end_component (uuid4 pr) st1)) as (c & Hheap & _).
  destruct (create_llm_component_frame (uuid4 pr) (fn_hash f) name
                model_name VNone (Z.max 0 (rss_end pr - rss_start pr))
                (now_start pr) (now_end pr)
                (extract_input_data U args kwargs result)
                (extract_llm_output U result) cost usage
                VNone (extract_parameters U kwargs)
                (end_component (uuid4 pr) st1)) as (Hc & Hch & _).
  destruct (create_llm_component _ _ _ _ _ _ _ _ _ _ _ _ _ _ _) as [r st2].
  cbn [fst snd] in *. cbn zeta.
  split; [reflexivity|]. split; [exact Hr|]. split; [by exists c|].
  split; [exact Hc | exact Hch].
Qed.

End Success.

(** C1, at the input where it fails: an awaited client call that returns, on
    an active tracer with LLM auto-instrumentation on.  The component is
    built and kept in [llm_data], and nothing reaches the sink or the
    children buffer.  The three sibling paths (synchronous success, both
    failures) each publish their component once. *)
Theorem async_success_component_not_routed :
  let pr := sample_probe "c-1" false in
  let res := trace_llm_call sample_utils pr acompletion [] [] live_tracer in
  res.1 = Returned (VStr "ok") /\
  llm_data res.2 = 1%nat /\
  (heap res.2 !! 1%nat) ≫= dict_get "id" = Some (VStr "c-1") /\
  routed res.2 = [] /\
  routed (trace_llm_call_sync sample_utils pr completion [] [] live_tracer).2
    = [1%nat] /\
  routed (trace_llm_call_sync sample_utils pr failing_completion [] [] live_tracer).2
    = [1%nat] /\
  routed (trace_llm_call sample_utils pr failing_acompletion [] [] live_tracer).2
    = [1%nat].
Proof. cbn zeta. repeat split; vm_compute; reflexivity. Qed.

(** ** Facade: registering metrics *)

(** Entries before the first one that raises are registered; that one ends
    the loop, whatever comes after it. *)
Lemma register_metrics_stops name (l1 l2 : list dict) (bad : dict) : forall st st' e,
  register_metrics name l1 st = (None, st') ->
  register_metric name bad st' = inl e ->
  register_metrics name (l1 ++ bad :: l2) st = (Some e, st').
Proof.
  induction l1 as [|entry l1 IH]; intros st st' e H1 Hbad; simpl in *.
  - injection H1 as <-. by rewrite Hbad.
  - destruct (register_metric name entry st) as [e'|st1]; [discriminate|].
    by apply IH.
Qed.

(** C9, at the input where it fails: a list whose first entry lacks its name
    and whose second entry is valid.  The [KeyError] of the first entry is
    logged and ends the loop, so the valid entry is not registered; the same
    valid entry is registered when it comes first. *)
Theorem trace_llm_drops_entries_after_invalid :
  let st := trace_llm (Some "chat") [] []
              (MetricsList [metric_without_name; metric_m]) VNone live_tracer in
  let st' := trace_llm (Some "chat") [] []
               (MetricsList [metric_m; metric_without_name]) VNone live_tracer in
  sa_metrics (span (Some "chat") st) = [] /\
  log st = [ErrorAddingMetric (KeyError "name")] /\
  sa_metrics (span (Some "chat") st') = [recorded "m"] /\
  log st' = [ErrorAddingMetric (KeyError "name")].
Proof. cbn zeta. repeat split; vm_compute; reflexivity. Qed.

(** ** Facade: publishing *)

(** The [finally] clause of a wrapper routes its component twice. *)
Lemma publish_from_facade_routes_twice component_id parent error_info r st :
  length (routed (publish_from_facade component_id parent error_info r st))
  = S (S (length (routed st))).
Proof.
  unfold publish_from_facade, routed, add_component, heap_set_item, end_component.
  repeat match goal with
         | |- context [match ?x with _ => _ end] => destruct x
         end;
    cbn; rewrite ?length_app; cbn; lia.
Qed.

(** C3, at an input where it fails: a decorated function that makes one
    patched client call, on an active tracer without parent agent.  When the
    function is about to leave, its component is already in the sink, with no
    error.  The wrapper then writes to that very dictionary (here the error
    of the decorated function) and appends it to the sink two more times.
    The same happens, error apart, when the function returns; around an
    awaited client call the wrapper is the only publisher, and publishes
    twice. *)
Theorem facade_publishes_again_and_mutates :
  let pr := sample_probe "c-outer" false in
  let entry := start_component "c-outer"
                 (set_current_llm_call_name (Some "chat") (set_gt VNone live_tracer)) in
  let inside := (fn_body ask_then_fail [] [] entry).2 in
  let res := sync_wrapper pr (Some "chat") ask_then_fail [] [] live_tracer in
  components inside = [1%nat] /\
  (heap inside !! 1%nat) ≫= dict_get "error" = Some VNone /\
  res.1 = Raised unusable_answer /\
  components res.2 = [1%nat; 1%nat; 1%nat] /\
  (heap res.2 !! 1%nat) ≫= dict_get "error" = Some (facade_error pr unusable_answer) /\
  components (sync_wrapper pr (Some "chat") ask [] [] live_tracer).2
    = [1%nat; 1%nat; 1%nat] /\
  components (async_wrapper pr (Some "chat") aask [] [] live_tracer).2
    = [1%nat; 1%nat].
Proof. cbn zeta. repeat split; vm_compute; reflexivity. Qed.

(** * Further properties *)

(** ** Installing and uninstalling *)

Section Install.

Implicit Types (st : tracer) (w : world) (obj c : nat) (m : string).

Lemma wrap_method_ok obj m st w c :
  attrs w !! (obj, m) = Some c ->
  rejects w !! obj = None ->
  wrap_method obj m (st, w) =
    (None,
     (set_patches (patches st ++ [mk_patch obj m c]) st,
      mk_world (<[(obj, m) := next_callable w]> (attrs w)) (rejects w)
        (S (next_callable w)))).
Proof.
  intros Ha Hr. unfold wrap_method, getattr, setattr. cbn.
  by rewrite Ha, Hr.
Qed.

Lemma replace_attribute_ok obj m st w c :
  attrs w !! (obj, m) = Some c ->
  rejects w !! obj = None ->
  replace_attribute obj m (st, w) =
    (None,
     (st, mk_world (<[(obj, m) := next_callable w]> (attrs w)) (rejects w)
            (S (next_callable w)))).
Proof.
  intros Ha Hr. unfold replace_attribute, getattr, setattr. cbn.
  by rewrite Ha, Hr.
Qed.

Lemma unpatch_run st w :
  unpatch_llm_calls (st, w) =
    (set_patches [] (fold_left unpatch_one (patches st) (st, w)).1,
     (fold_left unpatch_one (patches st) (st, w)).2).
Proof.
  unfold unpatch_llm_calls. cbn [fst].
  by destruct (fold_left unpatch_one (patches st) (st, w)).
Qed.

Lemma unpatch_one_ok st w p :
  rejects w !! p_obj p = None ->
  unpatch_one (st, w) p =
    (st, mk_world (<[target p := p_original p]> (attrs w)) (rejects w)
           (next_callable w)).
Proof. intros Hr. unfold unpatch_one, setattr. by rewrite Hr. Qed.

End Install.

(** X1. An attribute that is wrapped twice is not given back by uninstalling:
    the registry is walked front to back, so the second entry, whose
    "original" is the first wrapper, is restored last.  The attribute ends as
    the first wrapper and the registry is empty. *)
Theorem double_wrap_not_restored
    (obj : nat) (m : string) (st : tracer) (w : world) (original : nat) :
  patches st = [] ->
  attrs w !! (obj, m) = Some original ->
  rejects w !! obj = None ->
  original <> next_callable w ->
  let once := (wrap_method obj m (st, w)).2 in
  let twice := wrap_method obj m once in
  let after := unpatch_llm_calls twice.2 in
  twice.1 = None /\
  attrs once.2 !! (obj, m) = Some (next_callable w) /\
  patches twice.2.1 =
    [mk_patch obj m original; mk_patch obj m (next_callable w)] /\
  attrs after.2 !! (obj, m) = Some (next_callable w) /\
  attrs after.2 !! (obj, m) <> Some original /\
  patches after.1 = [].
Proof.
  intros Hp Ha Hr Hfresh once twice after.
  assert (E1 : once =
    (set_patches [mk_patch obj m original] st,
     mk_world (<[(obj, m) := next_callable w]> (attrs w)) (rejects w)
       (S (next_callable w)))).
  { subst once. rewrite (wrap_method_ok obj m st w original Ha Hr), Hp.
    reflexivity. }
  assert (E2 : twice =
    (None,
     (set_patches [mk_patch obj m original; mk_patch obj m (next_callable w)] st,
      mk_world (<[(obj, m) := S (next_callable w)]>
                  (<[(obj, m) := next_callable w]> (attrs w)))
        (rejects w) (S (S (next_callable w)))))).
  { subst twice. rewrite E1.
    rewrite (wrap_method_ok obj m _ _ (next_callable w));
      [reflexivity | apply lookup_insert_eq | exact Hr]. }
  assert (E3 : attrs after.2 !! (obj, m) = Some (next_callable w) /\
               patches after.1 = []).
  { subst after. rewrite E2. cbn [snd]. rewrite unpatch_run. cbn [fst snd patches set_patches fold_left].
    rewrite unpatch_one_ok by exact Hr.
    rewrite unpatch_one_ok by exact Hr.
    cbn. split; [apply lookup_insert_eq | reflexivity]. }
  destruct E3 as [E3 E4].
  split; [by rewrite E2|]. split; [rewrite E1; apply lookup_insert_eq|].
  split; [by rewrite E2|]. split; [exact E3|]. split; [|exact E4].
  rewrite E3. intros [= H]. by apply Hfresh.
Qed.

Lemma double_wrap_not_restored_witness :
  let twice := wrap_method 20 "completion"
                 (wrap_method 20 "completion" (live_tracer, provider_world)).2 in
  attrs (unpatch_llm_calls twice.2).2 !! (20%nat, "completion") = Some 1000%nat /\
  attrs provider_world !! (20%nat, "completion") = Some 100%nat.
Proof.
  split; [|vm_compute; reflexivity].
  apply (double_wrap_not_restored 20 "completion" live_tracer provider_world 100).
  - reflexivity.
  - vm_compute; reflexivity.
  - vm_compute; reflexivity.
  - cbn. lia.
Defined.

Lemma wrap_then_unpatch_witness :
  attrs (unpatch_llm_calls
           (wrap_method 20 "completion" (live_tracer, provider_world)).2).2
    !! (20%nat, "completion") = Some 100%nat.
Proof.
  apply (wrap_then_unpatch 20 "completion" live_tracer provider_world 100).
  - reflexivity.
  - vm_compute; reflexivity.
  - vm_compute; reflexivity.
Defined.

(** X3. [wrap_method] fails cleanly.  On an object without the method it
    raises [AttributeError] and changes nothing.  On an object that refuses
    the assignment it raises what [setattr] raised, and neither the registry
    nor any attribute has changed. *)
Theorem wrap_method_failure_keeps_registry
    (obj : nat) (m : string) (st : tracer) (w : world) :
  (attrs w !! (obj, m) = None ->
   wrap_method obj m (st, w) = (Some (AttributeError m), (st, w))) /\
  (forall c ty msg,
     attrs w !! (obj, m) = Some c ->
     rejects w !! obj = Some (ty, msg) ->
     let r := wrap_method obj m (st, w) in
     r.1 = Some (mk_exn ty msg true) /\
     r.2.1 = st /\
     attrs r.2.2 = attrs w /\
     rejects r.2.2 = rejects w).
Proof.
  split.
  - intros Ha. unfold wrap_method, getattr. by rewrite Ha.
  - intros c ty msg Ha Hr. unfold wrap_method, getattr, setattr. cbn.
    rewrite Ha, Hr. by repeat split.
Qed.

Lemma wrap_method_failure_keeps_registry_witness :
  wrap_method 60 "acompletion" (live_tracer, provider_world)
    = (Some (AttributeError "acompletion"), (live_tracer, provider_world)) /\
  (wrap_method 70 "create" (live_tracer, provider_world)).2.1 = live_tracer.
Proof.
  destruct (wrap_method_failure_keeps_registry 60 "acompletion" live_tracer
              provider_world) as [H1 _].
  destruct (wrap_method_failure_keeps_registry 70 "create" live_tracer
              provider_world) as [_ H2].
  split.
  - apply H1. vm_compute; reflexivity.
  - apply (H2 108%nat "AttributeError" "object attribute 'create' is read-only");
      vm_compute; reflexivity.
Defined.

(** X4. [patch_litellm_methods] is not all-or-nothing: on a module that has
    [completion] but no [acompletion] it raises [AttributeError] for the
    latter after [completion] has been wrapped and recorded. *)
Theorem patch_litellm_partial
    (module : nat) (st : tracer) (w : world) (c : nat) :
  attrs w !! (module, "completion") = Some c ->
  attrs w !! (module, "acompletion") = None ->
  rejects w !! module = None ->
  let r := patch_litellm_methods module (st, w) in
  r.1 = Some (AttributeError "acompletion") /\
  patches r.2.1 = (patches st ++ [mk_patch module "completion" c])%list /\
  attrs r.2.2 !! (module, "completion") = Some (next_callable w).
Proof.
  intros Hc Ha Hr. unfold patch_litellm_methods.
  rewrite (wrap_method_ok module "completion" st w c Hc Hr).
  unfold and_then, wrap_method, getattr. cbn.
  rewrite lookup_insert_ne by (intros [=]). rewrite Ha. cbn.
  repeat split. apply lookup_insert_eq.
Qed.

Lemma patch_litellm_partial_witness :
  (patch_litellm_methods 60 (live_tracer, provider_world)).1
    = Some (AttributeError "acompletion") /\
  patches (patch_litellm_methods 60 (live_tracer, provider_world)).2.1
    = [mk_patch 60 "completion" 107].
Proof.
  destruct (patch_litellm_partial 60 live_tracer provider_world 107) as (H1 & H2 & _);
    try (vm_compute; reflexivity).
  split; [exact H1 | exact H2].
Defined.

(** X5. Replacing an attribute the way [wrap_openai_client_methods],
    [wrap_anthropic_client_methods] and [wrap_genai_model_methods] replace
    [__init__], and [patch_google_genai_methods] replaces [invoke], records
    nothing in the registry; uninstalling therefore leaves the replacement
    in place. *)
Theorem replacement_survives_unpatch
    (obj : nat) (name : string) (st : tracer) (w : world) (original : nat) :
  attrs w !! (obj, name) = Some original ->
  rejects w !! obj = None ->
  (forall p, p ∈ patches st -> target p <> (obj, name)) ->
  let r := replace_attribute obj name (st, w) in
  r.1 = None /\
  patches r.2.1 = patches st /\
  attrs r.2.2 !! (obj, name) = Some (next_callable w) /\
  attrs (unpatch_llm_calls r.2).2 !! (obj, name) = Some (next_callable w).
Proof.
  intros Ha Hr Hp. cbn zeta.
  rewrite (replace_attribute_ok obj name st w original Ha Hr). cbn [fst snd].
  split; [reflexivity|]. split; [reflexivity|].
  split; [apply lookup_insert_eq|].
  rewrite unpatch_run. cbn [snd].
  rewrite unpatch_fold_other by exact Hp. apply lookup_insert_eq.
Qed.

Lemma replacement_survives_unpatch_witness :
  attrs (unpatch_llm_calls
           (wrap_anthropic_client_methods 51 (live_tracer, provider_world)).2).2
    !! (51%nat, "__init__") = Some 1000%nat.
Proof.
  apply (replacement_survives_unpatch 51 "__init__" live_tracer provider_world 106).
  - vm_compute; reflexivity.
  - vm_compute; reflexivity.
  - intros p Hp. inversion Hp.
Defined.

Section Vertex.

Implicit Types (st : tracer) (w : world).

Lemma wrap_vertex_model_methods_ok (C : nat) st w (f fa : nat) :
  attrs w !! (C, "generate_content") = Some f ->
  attrs w !! (C, "generate_content_async") = Some fa ->
  rejects w !! C = None ->
  wrap_vertex_model_methods C (st, w) =
    (None,
     (set_patches
        (patches st ++ [mk_patch C "generate_content" f;
                        mk_patch C "generate_content_async" fa]) st,
      mk_world
        (<[(C, "generate_content_async") := S (next_callable w)]>
           (<[(C, "generate_content") := next_callable w]> (attrs w)))
        (rejects w) (S (S (next_callable w))))).
Proof.
  intros Hf Hfa Hr. unfold wrap_vertex_model_methods.
  rewrite (wrap_method_ok C "generate_content" st w f Hf Hr).
  unfold and_then, wrap_if_present, hasattr. cbn [snd attrs].
  assert (Hfa' : <[(C, "generate_content") := next_callable w]> (attrs w)
                   !! (C, "generate_content_async") = Some fa).
  { rewrite lookup_insert_ne by (intros [=]). exact Hfa. }
  rewrite Hfa'.
  rewrite (wrap_method_ok C "generate_content_async" _
             (mk_world (<[(C, "generate_content") := next_callable w]> (attrs w))
                (rejects w) (S (next_callable w))) fa Hfa' Hr).
  cbn. by rewrite <- app_assoc.
Qed.

End Vertex.

(** X6. Patching [vertexai] and then [vertexai.generative_models], as
    [instrument_llm_calls] does when both are loaded, wraps the methods of
    the one class [GenerativeModel] twice.  The registry then holds two
    entries per method, and uninstalling leaves each method as its first
    wrapper instead of the original. *)
Theorem patch_vertex_ai_twice_not_restored
    (vertexai generative_models model_class f fa : nat) (st : tracer) (w : world) :
  patches st = [] ->
  attrs w !! (vertexai, "generative_models") = Some generative_models ->
  attrs w !! (vertexai, "GenerativeModel") = None ->
  attrs w !! (generative_models, "generative_models") = None ->
  attrs w !! (generative_models, "GenerativeModel") = Some model_class ->
  attrs w !! (model_class, "generate_content") = Some f ->
  attrs w !! (model_class, "generate_content_async") = Some fa ->
  rejects w !! model_class = None ->
  let first := patch_vertex_ai_methods vertexai (st, w) in
  let second := patch_vertex_ai_methods generative_models first.2 in
  let after := unpatch_llm_calls second.2 in
  first.1 = None /\ second.1 = None /\
  patches second.2.1 =
    [mk_patch model_class "generate_content" f;
     mk_patch model_class "generate_content_async" fa;
     mk_patch model_class "generate_content" (next_callable w);
     mk_patch model_class "generate_content_async" (S (next_callable w))] /\
  attrs after.2 !! (model_class, "generate_content") = Some (next_callable w) /\
  attrs after.2 !! (model_class, "generate_content_async")
    = Some (S (next_callable w)) /\
  patches after.1 = [].
Proof.
  intros Hp Hgm HnoM HnoG Hcls Hf Hfa Hr first second after.
  set (n := next_callable w) in *.
  set (w1 := mk_world
               (<[(model_class, "generate_content_async") := S n]>
                  (<[(model_class, "generate_content") := n]> (attrs w)))
               (rejects w) (S (S n))).
  set (st1 := set_patches
                [mk_patch model_class "generate_content" f;
                 mk_patch model_class "generate_content_async" fa] st).
  assert (E1 : first = (None, (st1, w1))).
  { subst first. unfold patch_vertex_ai_methods, when_hasattr. cbn [snd].
    rewrite Hgm, Hcls.
    rewrite (wrap_vertex_model_methods_ok model_class st w f fa Hf Hfa Hr).
    unfold and_then. cbn [snd attrs]. rewrite Hp. cbn [app]. fold n st1 w1.
    subst w1. cbn [attrs].
    rewrite !lookup_insert_ne by (intros [=]). by rewrite HnoM. }
  set (w2 := mk_world
               (<[(model_class, "generate_content_async") := S (S (S n))]>
                  (<[(model_class, "generate_content") := S (S n)]> (attrs w1)))
               (rejects w) (S (S (S (S n))))).
  set (st2 := set_patches
                [mk_patch model_class "generate_content" f;
                 mk_patch model_class "generate_content_async" fa;
                 mk_patch model_class "generate_content" n;
                 mk_patch model_class "generate_content_async" (S n)] st).
  assert (E2 : second = (None, (st2, w2))).
  { subst second. rewrite E1. cbn [snd].
    unfold patch_vertex_ai_methods, when_hasattr. cbn [snd].
    assert (H1 : attrs w1 !! (generative_models, "generative_models") = None).
    { subst w1. cbn [attrs]. rewrite !lookup_insert_ne by (intros [=]). exact HnoG. }
    assert (H2 : attrs w1 !! (generative_models, "GenerativeModel") = Some model_class).
    { subst w1. cbn [attrs]. rewrite !lookup_insert_ne by (intros [=]). exact Hcls. }
    rewrite H1. unfold and_then. cbn [snd]. rewrite H2.
    rewrite (wrap_vertex_model_methods_ok model_class st1 w1 n (S n)).
    - reflexivity.
    - subst w1. cbn [attrs]. rewrite lookup_insert_ne by (intros [=]).
      apply lookup_insert_eq.
    - subst w1. cbn [attrs]. apply lookup_insert_eq.
    - exact Hr. }
  assert (E3 : after =
    (set_patches [] st2,
     mk_world
       (<[(model_class, "generate_content_async") := S n]>
          (<[(model_class, "generate_content") := n]>
             (<[(model_class, "generate_content_async") := fa]>
                (<[(model_class, "generate_content") := f]> (attrs w2)))))
       (rejects w) (S (S (S (S n)))))).
  { subst after. rewrite E2. cbn [snd]. rewrite unpatch_run.
    cbn [patches st2 set_patches fold_left].
    rewrite !unpatch_one_ok by exact Hr. reflexivity. }
  split; [by rewrite E1|]. split; [by rewrite E2|]. split; [by rewrite E2|].
  rewrite E3. cbn [fst snd attrs].
  split; [|split; [|reflexivity]].
  - rewrite lookup_insert_ne by (intros [=]). apply lookup_insert_eq.
  - apply lookup_insert_eq.
Qed.

Lemma patch_vertex_ai_twice_not_restored_witness :
  let second := patch_vertex_ai_methods 31
                  (patch_vertex_ai_methods 30 (live_tracer, provider_world)).2 in
  attrs (unpatch_llm_calls second.2).2 !! (32%nat, "generate_content")
    = Some 1000%nat /\
  attrs provider_world !! (32%nat, "generate_content") = Some 102%nat.
Proof.
  split; [|vm_compute; reflexivity].
  apply (patch_vertex_ai_twice_not_restored 30 31 32 102 103 live_tracer
           provider_world); vm_compute; reflexivity.
Defined.

(** X7. [patch_google_genai_methods] on a module with the LangChain class
    [ChatGoogleGenerativeAI] replaces [invoke] and wraps [_generate].  Only
    the latter is recorded: uninstalling gives [_generate] back and leaves
    the replaced [invoke] in place. *)
Theorem patch_google_genai_invoke_not_restored
    (module chat_class invoke generate : nat) (st : tracer) (w : world) :
  patches st = [] ->
  attrs w !! (module, "GenerativeModel") = None ->
  attrs w !! (module, "ChatGoogleGenerativeAI") = Some chat_class ->
  attrs w !! (chat_class, "invoke") = Some invoke ->
  attrs w !! (chat_class, "_generate") = Some generate ->
  attrs w !! (chat_class, "_agenerate") = None ->
  attrs w !! (chat_class, "complete") = None ->
  attrs w !! (chat_class, "acomplete") = None ->
  rejects w !! chat_class = None ->
  let r := patch_google_genai_methods module (st, w) in
  let after := unpatch_llm_calls r.2 in
  r.1 = None /\
  patches r.2.1 = [mk_patch chat_class "_generate" generate] /\
  attrs r.2.2 !! (chat_class, "invoke") = Some (next_callable w) /\
  attrs r.2.2 !! (chat_class, "_generate") = Some (S (next_callable w)) /\
  attrs after.2 !! (chat_class, "_generate") = Some generate /\
  attrs after.2 !! (chat_class, "invoke") = Some (next_callable w) /\
  patches after.1 = [].
Proof.
  intros Hp HnoG Hcls Hinv Hgen Hag Hco Hac Hr r after.
  set (n := next_callable w) in *.
  set (w1 := mk_world (<[(chat_class, "invoke") := n]> (attrs w)) (rejects w) (S n)).
  set (w2 := mk_world (<[(chat_class, "_generate") := S n]> (attrs w1))
               (rejects w) (S (S n))).
  set (st2 := set_patches [mk_patch chat_class "_generate" generate] st).
  assert (E : r = (None, (st2, w2))).
  { subst r. unfold patch_google_genai_methods, when_hasattr. cbn [snd].
    rewrite HnoG. unfold and_then at 1. cbn [snd]. rewrite Hcls.
    rewrite (replace_attribute_ok chat_class "invoke" st w invoke Hinv Hr).
    fold n w1. unfold and_then at 1. unfold wrap_chat_methods.
    assert (Hgen1 : attrs w1 !! (chat_class, "_generate") = Some generate).
    { subst w1. cbn [attrs]. rewrite lookup_insert_ne by (intros [=]). exact Hgen. }
    rewrite (wrap_method_ok chat_class "_generate" st w1 generate Hgen1 Hr).
    rewrite Hp. cbn [app]. change (next_callable w1) with (S n).
    change (rejects w1) with (rejects w). fold w2 st2.
    unfold and_then, wrap_if_present, hasattr. cbn [snd].
    assert (Hno : forall name,
              attrs w !! (chat_class, name) = None ->
              (chat_class, "invoke") <> (chat_class, name) ->
              (chat_class, "_generate") <> (chat_class, name) ->
              attrs w2 !! (chat_class, name) = None).
    { intros name Hn H1 H2. subst w2 w1. cbn [attrs].
      rewrite !lookup_insert_ne by assumption. exact Hn. }
    rewrite (Hno "_agenerate" Hag) by (intros [=]). cbn [snd].
    rewrite (Hno "complete" Hco) by (intros [=]). cbn [snd].
    rewrite (Hno "acomplete" Hac) by (intros [=]).
    reflexivity. }
  assert (E' : after =
    (set_patches [] st2,
     mk_world (<[(chat_class, "_generate") := generate]> (attrs w2))
       (rejects w) (S (S n)))).
  { subst after. rewrite E. cbn [snd]. rewrite unpatch_run.
    cbn [patches st2 set_patches fold_left].
    rewrite unpatch_one_ok by exact Hr. reflexivity. }
  rewrite E, E'. cbn [fst snd attrs w2 w1].
  split; [reflexivity|]. split; [reflexivity|].
  split; [rewrite lookup_insert_ne by (intros [=]); apply lookup_insert_eq|].
  split; [apply lookup_insert_eq|]. split; [apply lookup_insert_eq|].
  split; [|reflexivity].
  rewrite !lookup_insert_ne by (intros [=]). apply lookup_insert_eq.
Qed.

Lemma patch_google_genai_invoke_not_restored_witness :
  let r := patch_google_genai_methods 40 (live_tracer, provider_world) in
  attrs (unpatch_llm_calls r.2).2 !! (41%nat, "_generate") = Some 105%nat /\
  attrs (unpatch_llm_calls r.2).2 !! (41%nat, "invoke") = Some 1000%nat.
Proof.
  destruct (patch_google_genai_invoke_not_restored 40 41 104 105 live_tracer
              provider_world) as (_ & _ & _ & _ & H1 & H2 & _);
    try (vm_compute; reflexivity).
  split; [exact H1 | exact H2].
Defined.

(** ** The builder, further *)

Ltac build_cases :=
  unfold create_llm_component, heap_alloc, span;
  cbn [span_attributes_dict set_total_tokens set_total_cost];
  match goal with
  | |- context [span_attributes_dict ?st !! ?k] =>
      destruct (span_attributes_dict st !! k) as [sa|]
  end.

Section BuilderMore.

Implicit Types (st : tracer) (d e : dict) (k : string) (v : pyval).

Lemma dict_get_set_eq k v d : dict_get k (dict_set k v d) = Some v.
Proof.
  induction d as [|[k' v'] d IH]; simpl.
  - by rewrite String.eqb_refl.
  - destruct (String.eqb k k') eqn:E; simpl; [by rewrite String.eqb_refl|].
    by rewrite E.
Qed.

Lemma dict_get_set_ne k k' v d :
  k <> k' -> dict_get k' (dict_set k v d) = dict_get k' d.
Proof.
  intros Hne. induction d as [|[k0 v0] d IH]; simpl.
  - destruct (String.eqb_spec k' k); [congruence | reflexivity].
  - destruct (String.eqb_spec k k0) as [->|Hk]; simpl.
    + destruct (String.eqb_spec k' k0); [congruence | reflexivity].
    + destruct (String.eqb k' k0); [reflexivity | exact IH].
Qed.

Lemma dict_set_keys k v d :
  map fst (dict_set k v d) =
    if decide (k ∈ map fst d) then map fst d else (map fst d ++ [k])%list.
Proof.
  induction d as [|[k' v'] d IH].
  - cbn [dict_set map fst app].
    destruct (decide (k ∈ [])) as [H|H]; [|reflexivity].
    by apply elem_of_nil in H.
  - cbn [dict_set map fst]. destruct (String.eqb_spec k k') as [->|Hne].
    + cbn [map fst].
      destruct (decide (k' ∈ k' :: map fst d)) as [H|H]; [reflexivity|].
      exfalso. apply H. by left.
    + cbn [map fst]. rewrite IH.
      destruct (decide (k ∈ map fst d)) as [Hin|Hin];
        destruct (decide (k ∈ k' :: map fst d)) as [H|H].
      * reflexivity.
      * exfalso. apply H. by right.
      * apply elem_of_cons in H as [?|?]; congruence.
      * reflexivity.
Qed.

Lemma dict_set_NoDup k v d :
  NoDup (map fst d) -> NoDup (map fst (dict_set k v d)).
Proof.
  intros Hnd. rewrite dict_set_keys.
  destruct (decide (k ∈ map fst d)) as [Hin|Hin]; [exact Hnd|].
  apply list.NoDup_app. split; [exact Hnd|]. split.
  - intros x Hx Hx'. apply list_elem_of_singleton in Hx'. by subst.
  - apply NoDup_singleton.
Qed.

Lemma dict_update_NoDup e : forall d,
  NoDup (map fst d) -> NoDup (map fst (dict_update d e)).
Proof.
  unfold dict_update. induction e as [|[k v] e IH]; intros d Hd; simpl;
    [exact Hd|]. apply IH. by apply dict_set_NoDup.
Qed.

Lemma keep_scalars_NoDup l : forall acc,
  NoDup (map fst acc) -> NoDup (map fst (fold_left keep_scalars l acc)).
Proof.
  induction l as [|[k v] l IH]; intros acc Hacc; simpl; [exact Hacc|].
  apply IH. unfold keep_scalars. simpl.
  destruct (is_scalar v); [by apply dict_set_NoDup | exact Hacc].
Qed.

(** The keys of the display projection are pairwise different. *)
Lemma parameters_to_display_NoDup parameters :
  NoDup (map fst (parameters_to_display parameters)).
Proof.
  unfold parameters_to_display.
  set (start := match dict_get "run_manager" parameters with
                | Some (VObj (Some metadata)) => dict_update [] metadata
                | _ => []
                end).
  assert (Hstart : NoDup (map fst start)).
  { subst start.
    destruct (dict_get "run_manager" parameters) as [[| | | | | | |[md|]|]|];
      first [apply dict_update_NoDup; constructor | constructor]. }
  apply (sublist_NoDup _ (map fst (fold_left keep_scalars parameters start))).
  - by apply keep_scalars_NoDup.
  - apply (fmap_sublist fst). apply sublist_take.
Qed.

Lemma dict_update_get_other e : forall d k,
  k ∉ map fst e -> dict_get k (dict_update d e) = dict_get k d.
Proof.
  unfold dict_update. induction e as [|[k0 v0] e IH]; intros d k Hk; simpl;
    [reflexivity|].
  rewrite IH by (intros H; apply Hk; by right).
  apply dict_get_set_ne. intros ->. apply Hk. by left.
Qed.

(** In [d.update(e)] every entry of [e] is found under its key. *)
Lemma dict_update_get e : forall d kv,
  NoDup (map fst e) -> kv ∈ e -> dict_get kv.1 (dict_update d e) = Some kv.2.
Proof.
  induction e as [|[k0 v0] e IH]; intros d kv Hnd Hin.
  - by apply elem_of_nil in Hin.
  - simpl in Hnd. apply list.NoDup_cons in Hnd as [Hk0 Hnd].
    apply elem_of_cons in Hin as [->|Hin].
    + change (dict_update d ((k0, v0) :: e))
        with (dict_update (dict_set k0 v0 d) e).
      rewrite dict_update_get_other by exact Hk0. apply dict_get_set_eq.
    + change (dict_update d ((k0, v0) :: e))
        with (dict_update (dict_set k0 v0 d) e).
      by apply IH.
Qed.

Lemma create_llm_component_lookup
    component_id hash_id name llm_type version memory_used start_time end_time
    input_data output_data cost usage error parameters st c :
  heap (create_llm_component component_id hash_id name llm_type version
          memory_used start_time end_time input_data output_data cost usage
          error parameters st).2 = (heap st ++ [c])%list ->
  heap (create_llm_component component_id hash_id name llm_type version
          memory_used start_time end_time input_data output_data cost usage
          error parameters st).2
  !! (create_llm_component component_id hash_id name llm_type version
        memory_used start_time end_time input_data output_data cost usage
        error parameters st).1 = Some c.
Proof.
  intros ->. rewrite create_llm_component_ref.
  by rewrite lookup_app_r, Nat.sub_diag.
Qed.

(** The builder resets the attributes of its span name and of no other. *)
Lemma create_llm_component_span
    component_id hash_id name llm_type version memory_used start_time end_time
    input_data output_data cost usage error parameters st :
  span_attributes_dict
    (create_llm_component component_id hash_id name llm_type version
       memory_used start_time end_time input_data output_data cost usage
       error parameters st).2
  = <[Some name := SpanAttributes]> (span_attributes_dict st).
Proof. build_cases; reflexivity. Qed.

Lemma create_llm_component_identity
    component_id hash_id name llm_type version memory_used start_time end_time
    input_data output_data cost usage error parameters st :
  exists c data,
    heap (create_llm_component component_id hash_id name llm_type version
            memory_used start_time end_time input_data output_data cost usage
            error parameters st).2 = (heap st ++ [c])%list /\
    dict_get "id" c = Some (VStr component_id) /\
    dict_get "hash_id" c = Some (VStr hash_id) /\
    dict_get "type" c = Some (VStr "llm") /\
    dict_get "name" c = Some (VStr name) /\
    dict_get "parent_id" c = Some (opt_str (current_agent_id st)) /\
    dict_get "data" c = Some (VDict data) /\
    dict_get "memory_used" data = Some (VInt memory_used) /\
    dict_get "output" data = Some (default VNone output_data).
Proof.
  build_cases; eexists; eexists; (split; [reflexivity|]);
    cbn; repeat split; try reflexivity;
    destruct (truthy (gt st)); try reflexivity;
    by rewrite dict_get_set_ne.
Qed.

End BuilderMore.

(** X8. Span attributes are used once.  Building a component resets the
    attributes registered under its span name, and those of no other name;
    a component built right afterwards under the same name therefore has no
    metrics, and hands out no new metric name. *)
Theorem span_attributes_one_shot
    (id1 id2 hash_id name llm_type : string) (version : pyval)
    (memory_used : Z) (start_time end_time : string) (input_data : dict)
    (output_data : option pyval) (cost : list (string * Qc))
    (usage : list (string * Z)) (error : pyval) (parameters : dict)
    (st : tracer) :
  let first := create_llm_component id1 hash_id name llm_type version
                 memory_used start_time end_time input_data output_data cost
                 usage error parameters st in
  let second := create_llm_component id2 hash_id name llm_type version
                  memory_used start_time end_time input_data output_data cost
                  usage error parameters first.2 in
  span (Some name) first.2 = SpanAttributes /\
  (forall other, other <> Some name ->
     span_attributes_dict first.2 !! other = span_attributes_dict st !! other) /\
  (exists c, heap second.2 !! second.1 = Some c /\
             dict_get "metrics" c = Some (VList [])) /\
  visited_metrics second.2 = visited_metrics first.2.
Proof.
  intros first second.
  assert (Hspan : span (Some name) first.2 = SpanAttributes).
  { unfold span. subst first. rewrite create_llm_component_span.
    by rewrite lookup_insert_eq. }
  split; [exact Hspan|]. split; [|split].
  - intros other Hne. subst first. rewrite create_llm_component_span.
    apply lookup_insert_ne. congruence.
  - destruct (create_llm_component_fields id2 hash_id name llm_type version
                memory_used start_time end_time input_data output_data cost
                usage error parameters first.2)
      as (c & Hheap & _ & _ & _ & _ & _ & _ & Hm).
    exists c. split; [by apply create_llm_component_lookup|].
    rewrite Hm, Hspan. reflexivity.
  - destruct (create_llm_component_frame id2 hash_id name llm_type version
                memory_used start_time end_time input_data output_data cost
                usage error parameters first.2)
      as (_ & _ & _ & _ & _ & _ & _ & _ & _ & Hv).
    subst second. rewrite Hv, Hspan. reflexivity.
Qed.

(** X9. The display projection is spread into [info] after the fixed
    entries, so each of its entries is found in [info] under its key with
    its own value, also when the key is one of [model], [version],
    [memory_used], [cost], [tokens] or [tags]: a [model] parameter replaces
    the extracted model name there. *)
Theorem display_projection_overrides_info
    (component_id hash_id name llm_type : string) (version : pyval)
    (memory_used : Z) (start_time end_time : string) (input_data : dict)
    (output_data : option pyval) (cost : list (string * Qc))
    (usage : list (string * Z)) (error : pyval) (parameters : dict)
    (st : tracer) (kv : string * pyval) :
  kv ∈ parameters_to_display parameters ->
  let built := create_llm_component component_id hash_id name llm_type version
                 memory_used start_time end_time input_data output_data cost
                 usage error parameters st in
  exists c info,
    heap built.2 !! built.1 = Some c /\
    dict_get "info" c = Some (VDict info) /\
    dict_get kv.1 info = Some kv.2.
Proof.
  intros Hkv built.
  destruct (create_llm_component_fields component_id hash_id name llm_type
              version memory_used start_time end_time input_data output_data
              cost usage error parameters st)
    as (c & Hheap & _ & _ & _ & Hinfo & _).
  exists c. eexists. split; [by apply create_llm_component_lookup|].
  split; [exact Hinfo|].
  apply dict_update_get; [apply parameters_to_display_NoDup | exact Hkv].
Qed.

Lemma display_projection_overrides_info_witness :
  let built := create_llm_component "c-1" "h" "completion" "model-x" VNone 0
                 "t0" "t1" [] None [] [] VNone model_parameters live_tracer in
  exists c info,
    heap built.2 !! built.1 = Some c /\
    dict_get "info" c = Some (VDict info) /\
    dict_get "model" info = Some (VStr "gpt-4o").
Proof.
  apply (display_projection_overrides_info "c-1" "h" "completion" "model-x"
           VNone 0 "t0" "t1" [] None [] [] VNone model_parameters live_tracer
           ("model", VStr "gpt-4o")).
  vm_compute. left.
Defined.

(** ** The adapters, further *)

Section AdapterMore.

Variable U : llm_utils.
Implicit Types (pr : probe) (f : callable) (args : list pyval) (kwargs : dict)
  (st : tracer) (e : exn).

Lemma trace_llm_call_sync_returned pr f args kwargs st result st1 :
  is_active st = true ->
  auto_instrument_llm st = true ->
  execute_sync pr f args kwargs (start_component (uuid4 pr) st) = (Returned result, st1) ->
  trace_llm_call_sync U pr f args kwargs st =
    let built := built_on_success U pr f args kwargs result st1 in
    (Returned result, add_component built.1 false (set_llm_data built.1 built.2)).
Proof.
  intros Hact Hauto Hrun. unfold trace_llm_call_sync, built_on_success.
  rewrite Hact, Hauto. cbn [negb]. rewrite Hrun. cbn zeta.
  by destruct (create_llm_component _ _ _ _ _ _ _ _ _ _ _ _ _ _ _).
Qed.

Lemma trace_llm_call_returned pr f args kwargs st result st1 :
  is_active st = true ->
  auto_instrument_llm st = true ->
  await_func f args kwargs (start_component (uuid4 pr) st) = (Returned result, st1) ->
  trace_llm_call U pr f args kwargs st =
    let built := built_on_success U pr f args kwargs result st1 in
    (Returned result, set_llm_data built.1 built.2).
Proof.
  intros Hact Hauto Hrun. unfold trace_llm_call, built_on_success.
  rewrite Hact, Hauto. cbn [negb]. rewrite Hrun. cbn zeta.
  by destruct (create_llm_component _ _ _ _ _ _ _ _ _ _ _ _ _ _ _).
Qed.

Lemma trace_llm_call_sync_raised pr f args kwargs st e st1 :
  is_active st = true ->
  auto_instrument_llm st = true ->
  exc_is_exception e = true ->
  execute_sync pr f args kwargs (start_component (uuid4 pr) st) = (Raised e, st1) ->
  trace_llm_call_sync U pr f args kwargs st =
    let built := built_on_failure U pr f args kwargs e
                   (Z.max 0 (rss_end pr - rss_start pr)) st1 in
    (Raised e, add_component built.1 true (set_llm_data built.1 built.2)).
Proof.
  intros Hact Hauto Hexc Hrun. unfold trace_llm_call_sync, built_on_failure.
  rewrite Hact, Hauto. cbn [negb]. rewrite Hrun, Hexc. cbn zeta.
  by destruct (create_llm_component _ _ _ _ _ _ _ _ _ _ _ _ _ _ _).
Qed.

Lemma trace_llm_call_raised pr f args kwargs st e st1 :
  is_active st = true ->
  auto_instrument_llm st = true ->
  exc_is_exception e = true ->
  await_func f args kwargs (start_component (uuid4 pr) st) = (Raised e, st1) ->
  trace_llm_call U pr f args kwargs st =
    let built := built_on_failure U pr f args kwargs e 0 st1 in
    (Raised e, add_component built.1 false built.2).
Proof.
  intros Hact Hauto Hexc Hrun. unfold trace_llm_call, built_on_failure.
  rewrite Hact, Hauto. cbn [negb]. rewrite Hrun, Hexc. cbn zeta.
  by destruct (create_llm_component _ _ _ _ _ _ _ _ _ _ _ _ _ _ _).
Qed.

(** Publishing and recording in [llm_data] leave the counters, the current
    component id and the store alone. *)
Lemma publish_frame r b (record : bool) st :
  let st' := add_component r b (if record then set_llm_data r st else st) in
  total_tokens st' = total_tokens st /\
  total_cost st' = total_cost st /\
  current_component_id st' = current_component_id st /\
  heap st' = heap st /\
  llm_data st' = (if record then r else llm_data st).
Proof.
  unfold add_component. destruct record;
    cbn [current_agent_id set_llm_data];
    destruct (current_agent_id st); by repeat split.
Qed.

End AdapterMore.

Section Counters.

Variable U : llm_utils.
Implicit Types (pr : probe) (f : callable) (args : list pyval) (kwargs : dict)
  (st : tracer) (e : exn).

(** X10. A traced call that returns adds the token total of the extracted
    usage to the tracer's token counter, once.  The asynchronous adapter
    counts it as well, although it publishes nothing. *)
Theorem success_counts_usage pr f args kwargs st result st1 :
  is_active st = true ->
  auto_instrument_llm st = true ->
  let usage := extract_token_usage U result in
  (execute_sync pr f args kwargs (start_component (uuid4 pr) st) = (Returned result, st1) ->
   total_tokens (trace_llm_call_sync U pr f args kwargs st).2
     = total_tokens st1 + num_get "total_tokens" usage 0) /\
  (await_func f args kwargs (start_component (uuid4 pr) st) = (Returned result, st1) ->
   total_tokens (trace_llm_call U pr f args kwargs st).2
     = total_tokens st1 + num_get "total_tokens" usage 0).
Proof.
  intros Hact Hauto usage.
  pose proof (create_llm_component_frame (uuid4 pr) (fn_hash f)
                (default (fn_name f) (current_llm_call_name st1))
                (extract_model_name U args kwargs result) VNone
                (Z.max 0 (rss_end pr - rss_start pr)) (now_start pr) (now_end pr)
                (extract_input_data U args kwargs result)
                (extract_llm_output U result)
                (calculate_llm_cost U usage (extract_model_name U args kwargs result)
                   (model_costs st1))
                usage VNone
                (extract_parameters U kwargs) (end_component (uuid4 pr) st1))
    as (_ & _ & _ & _ & _ & _ & _ & Ht & _).
  split; intros Hrun.
  - rewrite (trace_llm_call_sync_returned U pr f args kwargs st result st1 Hact Hauto Hrun).
    cbn zeta. cbn [snd].
    destruct (publish_frame (built_on_success U pr f args kwargs result st1).1 false
                true (built_on_success U pr f args kwargs result st1).2)
      as (Et & _).
    cbn zeta in Et. rewrite Et. exact Ht.
  - rewrite (trace_llm_call_returned U pr f args kwargs st result st1 Hact Hauto Hrun).
    cbn zeta. cbn [snd]. exact Ht.
Qed.

(** X11. A traced call that raises leaves both counters as the wrapped call
    left them: the failure path builds its component without usage or
    cost. *)
Theorem failure_keeps_counters pr f args kwargs st e st1 :
  is_active st = true ->
  auto_instrument_llm st = true ->
  exc_is_exception e = true ->
  (execute_sync pr f args kwargs (start_component (uuid4 pr) st) = (Raised e, st1) ->
   let res := trace_llm_call_sync U pr f args kwargs st in
   total_tokens res.2 = total_tokens st1 /\ total_cost res.2 = total_cost st1) /\
  (await_func f args kwargs (start_component (uuid4 pr) st) = (Raised e, st1) ->
   let res := trace_llm_call U pr f args kwargs st in
   total_tokens res.2 = total_tokens st1 /\ total_cost res.2 = total_cost st1).
Proof.
  intros Hact Hauto Hexc.
  assert (Hframe : forall memory_used,
            total_tokens (built_on_failure U pr f args kwargs e memory_used st1).2
              = total_tokens st1 /\
            total_cost (built_on_failure U pr f args kwargs e memory_used st1).2
              = total_cost st1).
  { intros memory_used. unfold built_on_failure.
    pose proof (create_llm_component_frame (uuid4 pr) (fn_hash f)
                  (default (fn_name f) (current_llm_call_name st1)) "unknown"
                  VNone memory_used (now_start pr) (now_end pr)
                  (extract_input_data U args kwargs VNone) None [] []
                  (VDict (error_component e)) [] (end_component (uuid4 pr) st1))
      as (_ & _ & _ & _ & _ & _ & _ & Ht & Hc & _).
    cbn zeta in Ht, Hc. rewrite Ht, Hc. cbn [num_get List.find].
    split; [apply Z.add_0_r | apply Qcplus_0_r]. }
  split; intros Hrun res; subst res.
  - rewrite (trace_llm_call_sync_raised U pr f args kwargs st e st1 Hact Hauto Hexc Hrun).
    cbn zeta. cbn [snd].
    destruct (publish_frame
                (built_on_failure U pr f args kwargs e
                   (Z.max 0 (rss_end pr - rss_start pr)) st1).1 true true
                (built_on_failure U pr f args kwargs e
                   (Z.max 0 (rss_end pr - rss_start pr)) st1).2) as (Et & Ec & _).
    cbn zeta in Et, Ec. rewrite Et, Ec. apply Hframe.
  - rewrite (trace_llm_call_raised U pr f args kwargs st e st1 Hact Hauto Hexc Hrun).
    cbn zeta. cbn [snd].
    destruct (publish_frame (built_on_failure U pr f args kwargs e 0 st1).1 false
                false (built_on_failure U pr f args kwargs e 0 st1).2)
      as (Et & Ec & _).
    cbn zeta in Et, Ec. rewrite Et, Ec. apply Hframe.
Qed.

(** X12. When a traced call is over, by return or by exception, no component
    is current any more: the adapter does not restore the id that was
    current when it was entered, so a call nested in an open component
    leaves that component without a current id. *)
Theorem adapter_clears_current_component pr f args kwargs st o st1 :
  is_active st = true ->
  auto_instrument_llm st = true ->
  (forall e, o = Raised e -> exc_is_exception e = true) ->
  (execute_sync pr f args kwargs (start_component (uuid4 pr) st) = (o, st1) ->
   current_component_id (trace_llm_call_sync U pr f args kwargs st).2 = None) /\
  (await_func f args kwargs (start_component (uuid4 pr) st) = (o, st1) ->
   current_component_id (trace_llm_call U pr f args kwargs st).2 = None).
Proof.
  intros Hact Hauto Ho.
  assert (Hs : forall result,
            current_component_id (built_on_success U pr f args kwargs result st1).2 = None).
  { intros result. unfold built_on_success.
    pose proof (create_llm_component_frame (uuid4 pr) (fn_hash f)
                  (default (fn_name f) (current_llm_call_name st1))
                  (extract_model_name U args kwargs result) VNone
                  (Z.max 0 (rss_end pr - rss_start pr)) (now_start pr) (now_end pr)
                  (extract_input_data U args kwargs result)
                  (extract_llm_output U result)
                  (calculate_llm_cost U (extract_token_usage U result)
                     (extract_model_name U args kwargs result) (model_costs st1))
                  (extract_token_usage U result) VNone
                  (extract_parameters U kwargs) (end_component (uuid4 pr) st1))
      as (_ & _ & _ & _ & _ & H & _).
    exact H. }
  assert (Hf : forall e memory_used,
            current_component_id (built_on_failure U pr f args kwargs e memory_used st1).2
              = None).
  { intros e memory_used. unfold built_on_failure.
    pose proof (create_llm_component_frame (uuid4 pr) (fn_hash f)
                  (default (fn_name f) (current_llm_call_name st1)) "unknown"
                  VNone memory_used (now_start pr) (now_end pr)
                  (extract_input_data U args kwargs VNone) None [] []
                  (VDict (error_component e)) [] (end_component (uuid4 pr) st1))
      as (_ & _ & _ & _ & _ & H & _).
    exact H. }
  split; intros Hrun; destruct o as [result|e].
  - rewrite (trace_llm_call_sync_returned U pr f args kwargs st result st1 Hact Hauto Hrun).
    cbn zeta. cbn [snd].
    destruct (publish_frame (built_on_success U pr f args kwargs result st1).1 false
                true (built_on_success U pr f args kwargs result st1).2)
      as (_ & _ & E & _).
    cbn zeta in E. rewrite E. apply Hs.
  - rewrite (trace_llm_call_sync_raised U pr f args kwargs st e st1 Hact Hauto
               (Ho e eq_refl) Hrun).
    cbn zeta. cbn [snd].
    destruct (publish_frame
                (built_on_failure U pr f args kwargs e
                   (Z.max 0 (rss_end pr - rss_start pr)) st1).1 true true
                (built_on_failure U pr f args kwargs e
                   (Z.max 0 (rss_end pr - rss_start pr)) st1).2) as (_ & _ & E & _).
    cbn zeta in E. rewrite E. apply Hf.
  - rewrite (trace_llm_call_returned U pr f args kwargs st result st1 Hact Hauto Hrun).
    cbn zeta. cbn [snd]. apply Hs.
  - rewrite (trace_llm_call_raised U pr f args kwargs st e st1 Hact Hauto
               (Ho e eq_refl) Hrun).
    cbn zeta. cbn [snd].
    destruct (publish_frame (built_on_failure U pr f args kwargs e 0 st1).1 false
                false (built_on_failure U pr f args kwargs e 0 st1).2)
      as (_ & _ & E & _).
    cbn zeta in E. rewrite E. apply Hf.
Qed.

End Counters.

Lemma success_counts_usage_witness :
  total_tokens (trace_llm_call_sync sample_utils (sample_probe "c-1" false)
                  completion [] [] live_tracer).2 = 15 /\
  total_tokens (trace_llm_call sample_utils (sample_probe "c-1" false)
                  acompletion [] [] live_tracer).2 = 15.
Proof.
  destruct (success_counts_usage sample_utils (sample_probe "c-1" false)
              completion [] [] live_tracer (VStr "ok")
              (start_component "c-1" live_tracer) eq_refl eq_refl) as [Hs _].
  destruct (success_counts_usage sample_utils (sample_probe "c-1" false)
              acompletion [] [] live_tracer (VStr "ok")
              (start_component "c-1" live_tracer) eq_refl eq_refl) as [_ Ha].
  split; [rewrite (Hs eq_refl) | rewrite (Ha eq_refl)]; reflexivity.
Defined.

Lemma failure_keeps_counters_witness :
  total_tokens (trace_llm_call_sync sample_utils (sample_probe "c-1" false)
                  failing_completion [] [] live_tracer).2 = 0 /\
  total_tokens (trace_llm_call sample_utils (sample_probe "c-1" false)
                  failing_acompletion [] [] live_tracer).2 = 0.
Proof.
  destruct (failure_keeps_counters sample_utils (sample_probe "c-1" false)
              failing_completion [] [] live_tracer bad_request
              (start_component "c-1" live_tracer) eq_refl eq_refl eq_refl)
    as [Hs _].
  destruct (failure_keeps_counters sample_utils (sample_probe "c-1" false)
              failing_acompletion [] [] live_tracer bad_request
              (start_component "c-1" live_tracer) eq_refl eq_refl eq_refl)
    as [_ Ha].
  destruct (Hs eq_refl) as [Ht _]. destruct (Ha eq_refl) as [Ht' _].
  split; [rewrite Ht | rewrite Ht']; reflexivity.
Defined.

Lemma adapter_clears_current_component_witness :
  let open := set_current_component_id (Some "c-outer") live_tracer in
  current_component_id open = Some "c-outer" /\
  current_component_id
    (trace_llm_call_sync sample_utils (sample_probe "c-1" false) completion [] []
       open).2 = None.
Proof.
  split; [reflexivity|].
  destruct (adapter_clears_current_component sample_utils (sample_probe "c-1" false)
              completion [] [] (set_current_component_id (Some "c-outer") live_tracer)
              (Returned (VStr "ok"))
              (start_component "c-1"
                 (set_current_component_id (Some "c-outer") live_tracer))
              eq_refl eq_refl) as [Hsync _].
  - intros e He. discriminate He.
  - apply Hsync. reflexivity.
Defined.

Section Identity.

Variable U : llm_utils.

(** The component a synchronous traced call leaves behind [llm_data]. *)
Lemma trace_llm_call_sync_component
    (pr : probe) (f : callable) (args : list pyval) (kwargs : dict)
    (st : tracer) (result : pyval) (st1 : tracer) :
  is_active st = true ->
  auto_instrument_llm st = true ->
  execute_sync pr f args kwargs (start_component (uuid4 pr) st) = (Returned result, st1) ->
  let res := trace_llm_call_sync U pr f args kwargs st in
  let memory_used := Z.max 0 (rss_end pr - rss_start pr) in
  exists c data,
    heap res.2 !! llm_data res.2 = Some c /\
    dict_get "id" c = Some (VStr (uuid4 pr)) /\
    dict_get "hash_id" c = Some (VStr (fn_hash f)) /\
    dict_get "name" c =
      Some (VStr (default (fn_name f) (current_llm_call_name st1))) /\
    dict_get "parent_id" c = Some (opt_str (current_agent_id st1)) /\
    dict_get "data" c = Some (VDict data) /\
    dict_get "memory_used" data = Some (VInt memory_used) /\
    0 <= memory_used /\
    dict_get "output" data = Some (default VNone (extract_llm_output U result)).
Proof.
  intros Hact Hauto Hrun res memory_used. subst res memory_used.
  rewrite (trace_llm_call_sync_returned U pr f args kwargs st result st1 Hact Hauto Hrun).
  cbn zeta. cbn [snd].
  destruct (publish_frame (built_on_success U pr f args kwargs result st1).1 false
              true (built_on_success U pr f args kwargs result st1).2)
    as (_ & _ & _ & Eh & El).
  cbn zeta in Eh, El. rewrite Eh, El. unfold built_on_success.
  destruct (create_llm_component_identity (uuid4 pr) (fn_hash f)
              (default (fn_name f) (current_llm_call_name st1))
              (extract_model_name U args kwargs result) VNone
              (Z.max 0 (rss_end pr - rss_start pr)) (now_start pr) (now_end pr)
              (extract_input_data U args kwargs result)
              (extract_llm_output U result)
              (calculate_llm_cost U (extract_token_usage U result)
                 (extract_model_name U args kwargs result) (model_costs st1))
              (extract_token_usage U result) VNone
              (extract_parameters U kwargs) (end_component (uuid4 pr) st1))
    as (c & data & Hheap & Hid & Hhash & _ & Hname & Hparent & Hdata & Hmem & Hout).
  exists c, data.
  split; [by apply create_llm_component_lookup|].
  repeat (split; [assumption|]). split; [lia | exact Hout].
Qed.

(** X13. The component of a synchronous traced call that returns, as found
    behind [llm_data]: it carries the id drawn for the call and the hash of
    the wrapped callable; its name is the call name of the context if one is
    set when the call returns and the callable's own name otherwise; its
    parent is the agent current at that time; its memory reading is the
    growth of the resident set over the call, or zero if that shrank, and so
    never negative; its output is what was extracted from the result. *)
Theorem published_component_identity
    (pr : probe) (f : callable) (args : list pyval) (kwargs : dict)
    (st : tracer) (result : pyval) (st1 : tracer) :
  is_active st = true ->
  auto_instrument_llm st = true ->
  execute_sync pr f args kwargs (start_component (uuid4 pr) st) = (Returned result, st1) ->
  let res := trace_llm_call_sync U pr f args kwargs st in
  let memory_used := Z.max 0 (rss_end pr - rss_start pr) in
  exists c data,
    heap res.2 !! llm_data res.2 = Some c /\
    dict_get "id" c = Some (VStr (uuid4 pr)) /\
    dict_get "hash_id" c = Some (VStr (fn_hash f)) /\
    dict_get "name" c =
      Some (VStr (default (fn_name f) (current_llm_call_name st1))) /\
    dict_get "parent_id" c = Some (opt_str (current_agent_id st1)) /\
    dict_get "data" c = Some (VDict data) /\
    dict_get "memory_used" data = Some (VInt memory_used) /\
    0 <= memory_used /\
    dict_get "output" data = Some (default VNone (extract_llm_output U result)).
Proof. exact (trace_llm_call_sync_component pr f args kwargs st result st1). Qed.

End Identity.

Lemma published_component_identity_witness :
  let res := trace_llm_call_sync sample_utils (sample_probe "c-1" false)
               completion [] [] live_tracer in
  exists c data,
    heap res.2 !! llm_data res.2 = Some c /\
    dict_get "id" c = Some (VStr "c-1") /\
    dict_get "hash_id" c = Some (VStr "hash-completion") /\
    dict_get "name" c = Some (VStr "completion") /\
    dict_get "parent_id" c = Some VNone /\
    dict_get "data" c = Some (VDict data) /\
    dict_get "memory_used" data = Some (VInt 200) /\
    0 <= 200 /\
    dict_get "output" data = Some (VStr "ok").
Proof.
  apply (published_component_identity sample_utils (sample_probe "c-1" false)
           completion [] [] live_tracer (VStr "ok")
           (start_component "c-1" live_tracer) eq_refl eq_refl eq_refl).
Defined.

(** ** The facade, further *)

Section Registration.

Implicit Types (st : tracer) (name : option string).

Lemma span_update_span name f st :
  span name (update_span name f st) = f (span name st).
Proof.
  unfold span at 1, update_span. cbn [span_attributes_dict set_span_attributes_dict].
  by rewrite lookup_insert_eq.
Qed.

Lemma register_metric_valid name entry m st :
  entry_metric entry = Some m ->
  register_metric name entry st =
    inr (update_span name
           (fun _ => mk_span (sa_tags (span name st)) (sa_metadata (span name st))
                       (sa_metrics (span name st) ++ [m])
                       (sa_feedback (span name st))) st).
Proof.
  unfold entry_metric, register_metric. intros H.
  destruct (dict_get "name" entry) as [[| | | |n| | | |]|]; try discriminate.
  destruct (dict_get "score" entry) as [s|]; [|discriminate].
  injection H as <-. reflexivity.
Qed.

Lemma register_metrics_valid name entries : forall st,
  Forall (fun entry => is_Some (entry_metric entry)) entries ->
  exists st',
    register_metrics name entries st = (None, st') /\
    sa_metrics (span name st') = (sa_metrics (span name st) ++ omap entry_metric entries)%list /\
    sa_tags (span name st') = sa_tags (span name st) /\
    log st' = log st.
Proof.
  induction entries as [|entry entries IH]; intros st Hall.
  - exists st. cbn. by rewrite app_nil_r.
  - inversion Hall as [|entry' entries' [m Hm] Hall']; subst entry' entries'.
    clear Hall. rename Hall' into Hall.
    cbn [register_metrics]. rewrite (register_metric_valid name entry m st Hm).
    destruct (IH (update_span name
                    (fun _ => mk_span (sa_tags (span name st))
                                (sa_metadata (span name st))
                                (sa_metrics (span name st) ++ [m])
                                (sa_feedback (span name st))) st) Hall)
      as (st' & Hrun & Hmetrics & Htags & Hlog).
    exists st'. split; [exact Hrun|].
    rewrite span_update_span in Hmetrics, Htags. cbn in Hmetrics, Htags.
    split; [|by split].
    rewrite Hmetrics.
    change (omap entry_metric (entry :: entries))
      with (match entry_metric entry with
            | Some y => y :: omap entry_metric entries
            | None => omap entry_metric entries
            end).
    rewrite Hm. by rewrite <- app_assoc.
Qed.

End Registration.

(** X14. When every entry of the metrics list has a string name and a score,
    [trace_llm] registers all of them for the span name, in the order of the
    list and after what was pending; it appends the given tags to the pending
    ones, logs nothing, and makes the name the call name of the context. *)
Theorem trace_llm_registers_valid_metrics
    (name : option string) (tags : list string) (metadata : dict)
    (entries : list dict) (feedback : pyval) (st : tracer) :
  Forall (fun entry => is_Some (entry_metric entry)) entries ->
  let st' := trace_llm name tags metadata (MetricsList entries) feedback st in
  sa_metrics (span name st')
    = (sa_metrics (span name st) ++ omap entry_metric entries)%list /\
  sa_tags (span name st') = (sa_tags (span name st) ++ tags)%list /\
  log st' = log st /\
  current_llm_call_name st' = name.
Proof.
  intros Hall. unfold trace_llm. cbn [metrics_entries].
  set (st0 := match span_attributes_dict st !! name with
              | Some _ => st
              | None => update_span name (fun _ => SpanAttributes) st
              end).
  assert (H0 : span name st0 = span name st /\ log st0 = log st).
  { subst st0. destruct (span_attributes_dict st !! name) as [sa|] eqn:E.
    - by split.
    - rewrite span_update_span. unfold span. by rewrite E. }
  destruct H0 as [H0s H0l].
  set (st1 := match tags with [] => st0 | _ => update_span name (add_tags tags) st0 end).
  assert (H1 : sa_tags (span name st1) = (sa_tags (span name st) ++ tags)%list /\
               sa_metrics (span name st1) = sa_metrics (span name st) /\
               log st1 = log st).
  { subst st1. destruct tags as [|t tags].
    - rewrite app_nil_r, H0s. by repeat split.
    - rewrite span_update_span, H0s. by repeat split. }
  destruct H1 as (H1t & H1m & H1l).
  set (st2 := match metadata with
              | [] => st1
              | _ => update_span name (add_metadata metadata) st1
              end).
  assert (H2 : sa_tags (span name st2) = (sa_tags (span name st) ++ tags)%list /\
               sa_metrics (span name st2) = sa_metrics (span name st) /\
               log st2 = log st).
  { subst st2. destruct metadata as [|kv metadata].
    - by repeat split.
    - rewrite span_update_span. by repeat split. }
  destruct H2 as (H2t & H2m & H2l).
  destruct (register_metrics_valid name entries st2 Hall)
    as (st3 & Hrun & H3m & H3t & H3l).
  rewrite Hrun. cbn zeta.
  destruct (truthy feedback).
  - cbn [current_llm_call_name set_current_llm_call_name log].
    change (span name (set_current_llm_call_name name ?s)) with (span name s).
    rewrite span_update_span. cbn [add_feedback sa_metrics sa_tags].
    rewrite H3m, H3t, H2m, H2t.
    change (log (update_span name (add_feedback feedback) st3)) with (log st3).
    by rewrite H3l, H2l.
  - change (span name (set_current_llm_call_name name st3)) with (span name st3).
    rewrite H3m, H3t, H2m, H2t.
    change (log (set_current_llm_call_name name st3)) with (log st3).
    by rewrite H3l, H2l.
Qed.

Lemma trace_llm_registers_valid_metrics_witness :
  let st' := trace_llm (Some "chat") ["prod"] [] (MetricsList [metric_m; metric_m])
               VNone live_tracer in
  sa_metrics (span (Some "chat") st') = [recorded "m"; recorded "m"] /\
  sa_tags (span (Some "chat") st') = ["prod"] /\
  log st' = [] /\
  current_llm_call_name st' = Some "chat".
Proof.
  apply (trace_llm_registers_valid_metrics (Some "chat") ["prod"] []
           [metric_m; metric_m] VNone live_tracer).
  repeat constructor; by eexists.
Defined.

Section Wrappers.

Implicit Types (st : tracer) (r : ref) (k : string) (v : pyval).

(** Writing an item of a stored dictionary changes the store at that
    reference only, and nothing else of the tracer. *)
Lemma heap_set_item_frame r k v st :
  let st' := heap_set_item r k v st in
  components st' = components st /\
  agent_children st' = agent_children st /\
  current_agent_id st' = current_agent_id st /\
  llm_data st' = llm_data st /\
  gt st' = gt st /\
  component_user_interaction st' = component_user_interaction st /\
  length (heap st') = length (heap st).
Proof.
  unfold heap_set_item. destruct (heap st !! r); cbn; repeat split.
  apply length_insert.
Qed.

Lemma heap_set_item_lookup r k v st d :
  heap st !! r = Some d ->
  heap (heap_set_item r k v st) !! r = Some (dict_set k v d).
Proof.
  intros H. unfold heap_set_item. rewrite H. cbn.
  apply list_lookup_insert_eq. by eapply lookup_lt_Some.
Qed.

Lemma publish_from_facade_no_parent component_id error_info r st :
  current_agent_id st = None ->
  let st' := publish_from_facade component_id None error_info r st in
  components st' = (components st ++ [r; r])%list /\
  agent_children st' = agent_children st /\
  llm_data st' = llm_data st /\
  length (heap st') = length (heap st).
Proof.
  intros Hnone. unfold publish_from_facade. cbn [has_parent opt_str truthy].
  set (st1 := match error_info with
              | Some err => heap_set_item r "error" err st
              | None => st
              end).
  assert (H1 : components st1 = components st /\
               agent_children st1 = agent_children st /\
               current_agent_id st1 = None /\
               llm_data st1 = llm_data st /\
               length (heap st1) = length (heap st)).
  { subst st1. destruct error_info as [err|]; [|by repeat split].
    destruct (heap_set_item_frame r "error" err st)
      as (Hc & Hch & Ha & Hl & _ & _ & Hh).
    cbn zeta in *. rewrite Hc, Hch, Ha, Hl, Hh. by repeat split. }
  destruct H1 as (H1c & H1ch & H1a & H1l & H1h).
  set (st2 := end_component component_id (add_component r false st1)).
  assert (H2 : components st2 = (components st ++ [r])%list /\
               agent_children st2 = agent_children st /\
               current_agent_id st2 = None /\
               llm_data st2 = llm_data st /\
               length (heap st2) = length (heap st)).
  { subst st2. unfold add_component. rewrite H1a. cbn.
    rewrite H1c, H1ch, H1a, H1l, H1h. by repeat split. }
  destruct H2 as (H2c & H2ch & H2a & H2l & H2h).
  set (interactions := VList (default [] (component_user_interaction st2 !! component_id))).
  destruct (heap_set_item_frame r "interactions" interactions st2)
    as (Hc & Hch & Ha & Hl & _ & _ & Hh).
  cbn zeta in *. unfold add_component. rewrite Ha, H2a. cbn.
  rewrite Hc, Hch, Hl, Hh, H2c, H2ch, H2l, H2h.
  rewrite <- app_assoc. by repeat split.
Qed.

End Wrappers.

(** X15. On an active tracer without parent agent, the wrapper around a
    plain function passes the function's outcome on and appends to the sink,
    twice, whatever dictionary [llm_data] refers to when the function
    leaves.  It builds no component of its own: when the function made no
    traced call, what is published is the component of an earlier call, or
    the empty dictionary of a new tracer. *)
Theorem sync_wrapper_publishes_llm_data_twice
    (pr : probe) (name : option string) (func : callable) (args : list pyval)
    (kwargs : dict) (st : tracer) (o : outcome) (st1 : tracer) :
  is_active st = true ->
  current_agent_id st = None ->
  call_func func args kwargs
    (start_component (uuid4 pr)
       (set_current_llm_call_name name (set_gt (gt_of_kwargs kwargs) st)))
    = (o, st1) ->
  current_agent_id st1 = None ->
  let res := sync_wrapper pr name func args kwargs st in
  res.1 = o /\
  components res.2 = (components st1 ++ [llm_data st1; llm_data st1])%list /\
  agent_children res.2 = agent_children st1 /\
  llm_data res.2 = llm_data st1 /\
  length (heap res.2) = length (heap st1).
Proof.
  intros Hact Hnone Hrun Hnone1 res. subst res. unfold sync_wrapper.
  set (st0 := set_current_llm_call_name name (set_gt (gt_of_kwargs kwargs) st)) in *.
  change (is_active st0) with (is_active st). rewrite Hact. cbn [negb].
  change (current_agent_id st0) with (current_agent_id st).
  rewrite Hnone, Hrun.
  destruct (heap_set_item_frame (llm_data st1) "name" (opt_str name) st1)
    as (Hc & Hch & Ha & Hl & _ & _ & Hh).
  cbn zeta in *.
  destruct (publish_from_facade_no_parent (uuid4 pr) (error_info_of pr o)
              (llm_data st1)
              (heap_set_item (llm_data st1) "name" (opt_str name) st1))
    as (Pc & Pch & Pl & Ph).
  { by rewrite Ha. }
  cbn zeta in *. cbn [fst snd].
  rewrite Pc, Pch, Pl, Ph, Hc, Hch, Hl, Hh. by repeat split.
Qed.

Lemma sync_wrapper_publishes_llm_data_twice_witness :
  let res := sync_wrapper (sample_probe "c-outer" false) (Some "chat")
               no_client_call [] [] live_tracer in
  res.1 = Returned VNone /\
  components res.2 = [0%nat; 0%nat] /\
  agent_children res.2 = [] /\
  llm_data res.2 = 0%nat /\
  length (heap res.2) = 1%nat.
Proof.
  apply (sync_wrapper_publishes_llm_data_twice (sample_probe "c-outer" false)
           (Some "chat") no_client_call [] [] live_tracer (Returned VNone)
           (start_component "c-outer"
              (set_current_llm_call_name (Some "chat") (set_gt VNone live_tracer))));
    reflexivity.
Defined.

(** X16. The wrapper around a coroutine function writes the ground truth
    into the ["data"] entry of the dictionary behind [llm_data].  When a
    ground truth is set and that dictionary has no ["data"] entry (no traced
    call has built a component yet), the [finally] clause raises
    [KeyError], which replaces the outcome of the decorated function, and
    nothing is published. *)
Theorem async_wrapper_gt_without_data_raises
    (pr : probe) (name : option string) (func : callable) (args : list pyval)
    (kwargs : dict) (st : tracer) (o : outcome) (st1 : tracer) (d : dict) :
  is_active st = true ->
  await_func func args kwargs
    (start_component (uuid4 pr)
       (set_current_llm_call_name name (set_gt (gt_of_kwargs kwargs) st)))
    = (o, st1) ->
  truthy (gt st1) = true ->
  heap st1 !! llm_data st1 = Some d ->
  dict_get "data" d = None ->
  let res := async_wrapper pr name func args kwargs st in
  res.1 = Raised (KeyError "data") /\
  components res.2 = components st1 /\
  agent_children res.2 = agent_children st1.
Proof.
  intros Hact Hrun Hgt Hd Hnodata res. subst res. unfold async_wrapper.
  set (st0 := set_current_llm_call_name name (set_gt (gt_of_kwargs kwargs) st)) in *.
  change (is_active st0) with (is_active st). rewrite Hact. cbn [negb].
  rewrite Hrun.
  destruct (heap_set_item_frame (llm_data st1) "name" (opt_str name) st1)
    as (Hc & Hch & _ & Hl & Hg & _ & _).
  cbn zeta in *. rewrite Hg, Hgt.
  unfold set_data_gt, heap_get.
  rewrite (heap_set_item_lookup _ _ _ _ d Hd).
  rewrite dict_get_set_ne by discriminate. rewrite Hnodata.
  cbn [fst snd]. by repeat split.
Qed.

Lemma async_wrapper_gt_without_data_raises_witness :
  let res := async_wrapper (sample_probe "c-outer" false) (Some "chat")
               ano_client_call [] [("gt", VStr "expected")] live_tracer in
  res.1 = Raised (KeyError "data") /\
  components res.2 = [] /\
  agent_children res.2 = [].
Proof.
  apply (async_wrapper_gt_without_data_raises (sample_probe "c-outer" false)
           (Some "chat") ano_client_call [] [("gt", VStr "expected")] live_tracer
           (Returned VNone)
           (start_component "c-outer"
              (set_current_llm_call_name (Some "chat")
                 (set_gt (VStr "expected") live_tracer))) []);
    reflexivity.
Defined.

(** X17. Patching a LangChain module whose [ChatVertexAI] class has
    [_generate] and [_agenerate] (and no completion methods) records one
    entry for each of the two, and uninstalling gives both methods their
    originals back and empties the registry. *)
Theorem patch_langchain_round_trip
    (module chat_class generate agenerate : nat) (st : tracer) (w : world) :
  patches st = [] ->
  attrs w !! (module, "ChatVertexAI") = Some chat_class ->
  attrs w !! (module, "ChatGoogleGenerativeAI") = None ->
  attrs w !! (chat_class, "_generate") = Some generate ->
  attrs w !! (chat_class, "_agenerate") = Some agenerate ->
  attrs w !! (chat_class, "complete") = None ->
  attrs w !! (chat_class, "acomplete") = None ->
  rejects w !! chat_class = None ->
  let r := patch_langchain_google_methods module (st, w) in
  let after := unpatch_llm_calls r.2 in
  r.1 = None /\
  patches r.2.1 = [mk_patch chat_class "_generate" generate;
                   mk_patch chat_class "_agenerate" agenerate] /\
  attrs r.2.2 !! (chat_class, "_generate") = Some (next_callable w) /\
  attrs r.2.2 !! (chat_class, "_agenerate") = Some (S (next_callable w)) /\
  attrs after.2 !! (chat_class, "_generate") = Some generate /\
  attrs after.2 !! (chat_class, "_agenerate") = Some agenerate /\
  patches after.1 = [].
Proof.
  intros Hp Hcls Hno Hgen Hagen Hco Hac Hr r after.
  set (n := next_callable w) in *.
  set (w1 := mk_world (<[(chat_class, "_generate") := n]> (attrs w)) (rejects w) (S n)).
  set (w2 := mk_world (<[(chat_class, "_agenerate") := S n]> (attrs w1))
               (rejects w) (S (S n))).
  set (st2 := set_patches [mk_patch chat_class "_generate" generate;
                           mk_patch chat_class "_agenerate" agenerate] st).
  assert (E : r = (None, (st2, w2))).
  { subst r. unfold patch_langchain_google_methods, when_hasattr. cbn [snd].
    rewrite Hcls. unfold wrap_chat_methods at 1.
    rewrite (wrap_method_ok chat_class "_generate" st w generate Hgen Hr).
    rewrite Hp. cbn [app]. fold n w1.
    assert (Hagen1 : attrs w1 !! (chat_class, "_agenerate") = Some agenerate).
    { subst w1. cbn [attrs]. rewrite lookup_insert_ne by (intros [=]). exact Hagen. }
    unfold and_then at 2. unfold wrap_if_present at 1, hasattr. cbn [snd].
    rewrite Hagen1.
    rewrite (wrap_method_ok chat_class "_agenerate" _ w1 agenerate Hagen1 Hr).
    change (next_callable w1) with (S n). change (rejects w1) with (rejects w).
    cbn [patches set_patches app]. fold w2.
    assert (Hnone : forall name,
              attrs w !! (chat_class, name) = None ->
              (chat_class, "_generate") <> (chat_class, name) ->
              (chat_class, "_agenerate") <> (chat_class, name) ->
              attrs w2 !! (chat_class, name) = None).
    { intros name Hn H1 H2. subst w2 w1. cbn [attrs].
      rewrite !lookup_insert_ne by assumption. exact Hn. }
    unfold and_then, wrap_if_present, hasattr. cbn [snd].
    rewrite (Hnone "complete" Hco) by (intros [=]). cbn [snd].
    rewrite (Hnone "acomplete" Hac) by (intros [=]). cbn [snd].
    assert (Hno2 : attrs w2 !! (module, "ChatGoogleGenerativeAI") = None).
    { subst w2 w1. cbn [attrs]. rewrite !lookup_insert_ne by (intros [=]).
      exact Hno. }
    rewrite Hno2. reflexivity. }
  assert (E' : after =
    (set_patches [] st2,
     mk_world (<[(chat_class, "_agenerate") := agenerate]>
                 (<[(chat_class, "_generate") := generate]> (attrs w2)))
       (rejects w) (S (S n)))).
  { subst after. rewrite E. cbn [snd]. rewrite unpatch_run.
    cbn [patches st2 set_patches fold_left].
    rewrite !unpatch_one_ok by exact Hr. reflexivity. }
  rewrite E, E'. cbn [fst snd attrs w2 w1].
  split; [reflexivity|]. split; [reflexivity|].
  split; [rewrite lookup_insert_ne by (intros [=]); apply lookup_insert_eq|].
  split; [apply lookup_insert_eq|].
  split; [rewrite lookup_insert_ne by (intros [=]); apply lookup_insert_eq|].
  split; [apply lookup_insert_eq | reflexivity].
Qed.

Lemma patch_langchain_round_trip_witness :
  let r := patch_langchain_google_methods 80 (live_tracer, langchain_world) in
  attrs r.2.2 !! (81%nat, "_generate") = Some 1000%nat /\
  attrs (unpatch_llm_calls r.2).2 !! (81%nat, "_generate") = Some 110%nat /\
  attrs (unpatch_llm_calls r.2).2 !! (81%nat, "_agenerate") = Some 111%nat.
Proof.
  destruct (patch_langchain_round_trip 80 81 110 111 live_tracer langchain_world)
    as (_ & _ & H0 & _ & H1 & H2 & _); try (vm_compute; reflexivity).
  split; [exact H0|]. split; [exact H1 | exact H2].
Defined.

Section Nesting.

Variable U : llm_utils.

Lemma add_component_agent r b st :
  current_agent_id (add_component r b st) = current_agent_id st.
Proof. unfold add_component. destruct (current_agent_id st) eqn:E; exact E. Qed.

Lemma trace_llm_call_sync_keeps_agent pr f args kwargs st result st1 :
  is_active st = true ->
  auto_instrument_llm st = true ->
  execute_sync pr f args kwargs (start_component (uuid4 pr) st) = (Returned result, st1) ->
  current_agent_id (trace_llm_call_sync U pr f args kwargs st).2 = current_agent_id st1.
Proof.
  intros Hact Hauto Hrun.
  rewrite (trace_llm_call_sync_returned U pr f args kwargs st result st1 Hact Hauto Hrun).
  cbn zeta. cbn [snd]. unfold built_on_success.
  pose proof (create_llm_component_frame (uuid4 pr) (fn_hash f)
                (default (fn_name f) (current_llm_call_name st1))
                (extract_model_name U args kwargs result) VNone
                (Z.max 0 (rss_end pr - rss_start pr)) (now_start pr) (now_end pr)
                (extract_input_data U args kwargs result)
                (extract_llm_output U result)
                (calculate_llm_cost U (extract_token_usage U result)
                   (extract_model_name U args kwargs result) (model_costs st1))
                (extract_token_usage U result) VNone
                (extract_parameters U kwargs) (end_component (uuid4 pr) st1))
    as (_ & _ & Ha & _).
  cbn zeta in Ha. rewrite add_component_agent.
  change (current_agent_id (set_llm_data ?r ?s)) with (current_agent_id s).
  rewrite Ha. reflexivity.
Qed.

(** X18. A traced call made inside another traced call is not attached to
    it.  Without a parent agent, the inner component goes to the sink first
    and the outer one right after it, side by side; the inner component has
    no parent id. *)
Theorem nested_calls_are_siblings
    (pr_out pr_in : probe) (f g : callable) (args : list pyval) (kwargs : dict)
    (st : tracer) (result : pyval) :
  is_active st = true ->
  auto_instrument_llm st = true ->
  current_agent_id st = None ->
  fn_is_coroutine f = false ->
  fn_is_coroutine g = false ->
  (forall a k s, fn_body f a k s = trace_llm_call_sync U pr_in g a k s) ->
  (forall a k s, fn_body g a k s = (Returned result, s)) ->
  let res := trace_llm_call_sync U pr_out f args kwargs st in
  let inner := length (heap st) in
  res.1 = Returned result /\
  components res.2 = (components st ++ [inner; S inner])%list /\
  agent_children res.2 = agent_children st /\
  exists c,
    heap res.2 !! inner = Some c /\
    dict_get "id" c = Some (VStr (uuid4 pr_in)) /\
    dict_get "parent_id" c = Some VNone.
Proof.
  intros Hact Hauto Hnone Hf Hg Hbf Hbg res inner.
  set (s0 := start_component (uuid4 pr_out) st).
  set (s1 := start_component (uuid4 pr_in) s0).
  assert (Hin : execute_sync pr_in g args kwargs s1 = (Returned result, s1)).
  { unfold execute_sync. by rewrite Hg, Hbg. }
  assert (Hact0 : is_active s0 = true) by exact Hact.
  assert (Hauto0 : auto_instrument_llm s0 = true) by exact Hauto.
  destruct (trace_llm_call_sync_success U pr_in g args kwargs s0 result s1
              Hact0 Hauto0 Hin) as (I1 & I2 & c & Iheap & _ & Ipub).
  destruct (trace_llm_call_sync_component U pr_in g args kwargs s0 result s1
              Hact0 Hauto0 Hin)
    as (c' & data & Jc & Jid & _ & _ & Jparent & _).
  pose proof (trace_llm_call_sync_keeps_agent pr_in g args kwargs s0 result s1
                Hact0 Hauto0 Hin) as Iagent.
  cbn zeta in *.
  set (mid := trace_llm_call_sync U pr_in g args kwargs s0) in *.
  change (current_agent_id s1) with (current_agent_id st) in *.
  change (heap s1) with (heap st) in *.
  rewrite Hnone in *.
  unfold published_once in Ipub.
  change (current_agent_id s1) with (current_agent_id st) in Ipub.
  rewrite Hnone in Ipub. destruct Ipub as [Ic Ich].
  change (components s1) with (components st) in Ic.
  change (agent_children s1) with (agent_children st) in Ich.
  change (heap s1) with (heap st) in Ic.
  assert (Hc' : c' = c).
  { rewrite I2, Iheap in Jc. rewrite lookup_app_r, Nat.sub_diag in Jc by lia.
    by injection Jc. }
  subst c'.
  assert (Hout : execute_sync pr_out f args kwargs s0 = (Returned result, mid.2)).
  { unfold execute_sync. rewrite Hf, Hbf. fold mid.
    rewrite (surjective_pairing mid) at 1. by rewrite I1. }
  destruct (trace_llm_call_sync_success U pr_out f args kwargs st result mid.2
              Hact Hauto Hout) as (O1 & _ & c_out & Oheap & _ & Opub).
  cbn zeta in *. fold res in O1, Oheap, Opub.
  unfold published_once in Opub. rewrite Iagent in Opub.
  destruct Opub as [Oc Och].
  split; [exact O1|]. split; [|split; [by rewrite Och, Ich|]].
  - rewrite Oc, Ic, Iheap, length_app, <- app_assoc. cbn.
    subst inner. by rewrite Nat.add_1_r.
  - exists c. split; [|by split].
    rewrite Oheap, Iheap. subst inner.
    rewrite lookup_app_l by (rewrite length_app; cbn; lia).
    by rewrite lookup_app_r, Nat.sub_diag.
Qed.

End Nesting.

Lemma nested_calls_are_siblings_witness :
  let res := trace_llm_call_sync sample_utils (sample_probe "c-outer" false)
               outer_completion [] [] live_tracer in
  res.1 = Returned (VStr "ok") /\
  components res.2 = [1%nat; 2%nat] /\
  agent_children res.2 = [] /\
  exists c,
    heap res.2 !! 1%nat = Some c /\
    dict_get "id" c = Some (VStr "c-inner") /\
    dict_get "parent_id" c = Some VNone.
Proof.
  apply (nested_calls_are_siblings sample_utils (sample_probe "c-outer" false)
           (sample_probe "c-inner" false) outer_completion completion [] []
           live_tracer (VStr "ok")); reflexivity.
Defined.
